(** * Update_disk_space.py: the daily disk-usage recorder

    A shallow embedding of [_bytes_to_human] and [update_daily_disk_csv]
    together with the parts of the Python runtime they call: integer to
    float conversion, true division, float multiplication and division,
    [format(x, ".2f")], [str] on integers, [strftime]/[isoformat],
    [posixpath.join], [csv.DictWriter] with the default [excel] dialect, and
    a small file system.

    Conventions.
    - Byte counts are Python [int]s that [shutil.disk_usage] reports; they
      are never negative and are modelled by [N].
    - A Python [float] is an IEEE-754 binary64 number.  Only non-negative
      values occur in this program; a finite one is modelled by the exact
      rational it denotes, and every arithmetic operation is the exact
      operation followed by rounding to nearest, ties to even ([b64_round]).
    - Strings are byte strings: the UTF-8 encoding of the Python text.  Text
      without such an encoding, as a path with bytes that do not decode, is
      kept as its bytes; writing it to the file fails.
    - Paths are identified by their spelling; the file system is a set of
      directory names and a map from file names to contents.
    - What the operating system may refuse ([os.makedirs], [open], a write)
      is part of the environment of a call. *)

From Stdlib Require Import Ascii ZArith NArith QArith Qround Qpower Qabs Lia Lqa.
From stdpp Require Import gmap strings pretty.

Local Open Scope Z_scope.

(** ** Exceptions and results *)

Inductive exn : Type :=
| OSError (errno : string)
| OverflowError
| ZeroDivisionError
| ValueError.

Inductive result (A : Type) : Type :=
| Ok (a : A)
| Raise (e : exn).
Arguments Ok {A} a.
Arguments Raise {A} e.

Global Instance exn_eq_dec : EqDecision exn.
Proof. solve_decision. Defined.
Global Instance result_eq_dec `{EqDecision A} : EqDecision (result A).
Proof. solve_decision. Defined.

Global Instance result_ret : MRet result := λ A a, Ok a.
Global Instance result_bind : MBind result := λ A B k m,
  match m with
  | Ok a => k a
  | Raise e => Raise e
  end.

(** ** binary64 arithmetic on non-negative values *)

Inductive float : Type :=
| Finite (q : Q)
| Inf.

(** Nearest integer, ties to the even one. *)
Definition round_half_even (x : Q) : Z :=
  let f := Qfloor x in
  match (x - inject_Z f ?= 1 # 2)%Q with
  | Lt => f
  | Gt => f + 1
  | Eq => if Z.even f then f else f + 1
  end.

(** For [0 < x], the integer [l] with [2^l <= x < 2^(l+1)]. *)
Definition ilog2 (x : Q) : Z :=
  let l := Z.log2 (Qnum x) - Z.log2 (Zpos (Qden x)) in
  if Qle_bool (2 ^ l) x then l else l - 1.

(** The exponent of the unit in the last place of [x]: 53 significant bits,
    and never below the subnormal exponent -1074. *)
Definition ulp_exp (x : Q) : Z := Z.max (ilog2 x - 52) (-1074).

(** The multiple of the unit in the last place that is nearest to [x]. *)
Definition round_to_ulp (x : Q) : Q :=
  let e := ulp_exp x in
  (inject_Z (round_half_even (x / 2 ^ e)) * 2 ^ e)%Q.

(** Rounding of a non-negative rational to binary64.  A result that reaches
    [2^1024] overflows. *)
Definition b64_round (x : Q) : float :=
  if Qle_bool x 0 then Finite 0
  else
    let y := round_to_ulp x in
    if Qle_bool (2 ^ 1024) y then Inf else Finite y.

(** Order and equality of float values. *)
Definition fle (x y : float) : Prop :=
  match x, y with
  | Finite a, Finite b => (a <= b)%Q
  | _, Inf => True
  | Inf, Finite _ => False
  end.

Definition feq (x y : float) : Prop :=
  match x, y with
  | Finite a, Finite b => (a == b)%Q
  | Inf, Inf => True
  | _, _ => False
  end.

Definition N2Q (n : N) : Q := inject_Z (Z.of_N n).

(** [float(n)] *)
Definition float_of_int (n : N) : result float :=
  match b64_round (N2Q n) with
  | Inf => Raise OverflowError
  | v => Ok v
  end.

(** [a / b] on integers: the correctly rounded quotient. *)
Definition int_truediv (a b : N) : result float :=
  if (b =? 0)%N then Raise ZeroDivisionError
  else
    match b64_round (N2Q a / N2Q b) with
    | Inf => Raise OverflowError
    | v => Ok v
    end.

(** [x * c] and [x / c] for a positive float constant [c]. *)
Definition fmul (x : float) (c : Q) : float :=
  match x with
  | Finite a => b64_round (a * c)
  | Inf => Inf
  end.

Definition fdiv (x : float) (c : Q) : float :=
  match x with
  | Finite a => b64_round (a / c)
  | Inf => Inf
  end.

(** [x < c] *)
Definition flt (x : float) (c : Q) : bool :=
  match x with
  | Finite a => negb (Qle_bool c a)
  | Inf => false
  end.

(** ** Text formatting *)

(** [str(n)] *)
Definition str (n : N) : string := pretty n.

(** Left padding with zeros, as [%02d] and [%04d] do. *)
Definition zpad (width : nat) (s : string) : string :=
  String.concat EmptyString (replicate (width - String.length s) "0") +:+ s.

(** The value of [x] in hundredths, as [format(x, ".2f")] rounds it. *)
Definition hundredths (q : Q) : Z := round_half_even (q * 100).

Definition show_hundredths (c : Z) : string :=
  str (Z.to_N (c / 100)) +:+ "." +:+ zpad 2 (str (Z.to_N (c mod 100))).

(** [f"{x:.2f}"] *)
Definition format_2f (x : float) : string :=
  match x with
  | Finite q => show_hundredths (hundredths q)
  | Inf => "inf"
  end.

(** The two-decimal rendering of the exact quotient [free/total*100], with
    no intermediate rounding: what a reading of "free/total*100 rounded to
    2 decimals" over the rationals asks for. *)
Definition exact_percent (free total : N) : string :=
  show_hundredths (hundredths (N2Q free / N2Q total * 100)).

(** The [width] decimal digits of [n], most significant first: the
    [YYYY], [MM], [DD], [HH], [MM], [SS] of a date pattern. *)
Fixpoint digits (width : nat) (n : N) : string :=
  match width with
  | O => EmptyString
  | S w => digits w (n / 10) +:+ String (pretty_N_char (n mod 10)) EmptyString
  end.

(** ** [_bytes_to_human] *)

Definition units : list string := ["B"; "KB"; "MB"; "GB"; "TB"; "PB"].

(** The [for unit in units] loop: the value and the unit it stops at.  Both
    [return] statements of the source format this pair the same way. *)
Fixpoint scale (units : list string) (value : float) : float * string :=
  match units with
  | [] => (value, "EB")
  | unit :: rest =>
      if flt value 1024 then (value, unit)
      else scale rest (fdiv value 1024)
  end.

(** How many units the loop passes over before it stops. *)
Fixpoint scale_steps (units : list string) (value : float) : nat :=
  match units with
  | [] => 0
  | _ :: rest =>
      if flt value 1024 then 0 else S (scale_steps rest (fdiv value 1024))
  end.

Definition _bytes_to_human (n : N) : result string :=
  value ← float_of_int n;
  let '(value, unit) := scale units value in
  mret (format_2f value +:+ " " +:+ unit).

(** The unit [_bytes_to_human] chooses. *)
Definition unit_of (n : N) : result string :=
  value ← float_of_int n;
  mret (snd (scale units value)).

(** Position of a unit in the progression B, KB, MB, GB, TB, PB, EB. *)
Fixpoint index_of (u : string) (l : list string) : nat :=
  match l with
  | [] => 0
  | v :: l' => if decide (u = v) then 0 else S (index_of u l')
  end.

Definition unit_rank (u : string) : nat := index_of u (units ++ ["EB"]).

(** ** Dates and times *)

Record date : Type := Date { year : N; month : N; day : N }.

Record datetime : Type := DateTime {
  dt_date : date;
  hour : N;
  minute : N;
  second : N;
  microsecond : N
}.

(** The ranges [datetime] objects are confined to. *)
Definition valid_date (d : date) : Prop :=
  (1 <= year d <= 9999)%N ∧ (1 <= month d <= 12)%N ∧ (1 <= day d <= 31)%N.

Definition valid_datetime (t : datetime) : Prop :=
  valid_date (dt_date t) ∧ (hour t < 24)%N ∧ (minute t < 60)%N ∧
  (second t < 60)%N ∧ (microsecond t < 1000000)%N.

(** [d.strftime("%Y%m%d")] *)
Definition strftime_Ymd (d : date) : string :=
  zpad 4 (str (year d)) +:+ zpad 2 (str (month d)) +:+ zpad 2 (str (day d)).

(** [t.isoformat(sep=" ", timespec="seconds")] of a naive [datetime] *)
Definition isoformat_seconds (t : datetime) : string :=
  zpad 4 (str (year (dt_date t))) +:+ "-" +:+
  zpad 2 (str (month (dt_date t))) +:+ "-" +:+
  zpad 2 (str (day (dt_date t))) +:+ " " +:+
  zpad 2 (str (hour t)) +:+ ":" +:+
  zpad 2 (str (minute t)) +:+ ":" +:+
  zpad 2 (str (second t)).

(** ** Paths *)

Definition starts_with_sep (p : string) : bool :=
  match p with
  | String c _ => bool_decide (c = "/"%char)
  | EmptyString => false
  end.

Fixpoint ends_with_sep (p : string) : bool :=
  match p with
  | EmptyString => false
  | String c EmptyString => bool_decide (c = "/"%char)
  | String _ rest => ends_with_sep rest
  end.

(** [posixpath.join(a, b)] *)
Definition path_join (a b : string) : string :=
  if starts_with_sep b then b
  else if bool_decide (a = EmptyString) || ends_with_sep a then a +:+ b
  else a +:+ "/" +:+ b.

(** [posixpath.isabs] *)
Definition isabs (p : string) : bool := starts_with_sep p.

(** The directories that [os.makedirs] has to find or create: every proper
    prefix of the name that ends before a separator, and the name itself. *)
Fixpoint ancestors_from (pre rest : string) : list string :=
  match rest with
  | EmptyString => [pre]
  | String c rest' =>
      (if bool_decide (c = "/"%char) && negb (bool_decide (pre = EmptyString))
       then [pre] else [])
      ++ ancestors_from (pre +:+ String c EmptyString) rest'
  end.

Definition ancestors (p : string) : list string := ancestors_from EmptyString p.

(** ** The [csv] writer, [excel] dialect *)

Definition dquote : ascii := Ascii.ascii_of_nat 34.
Definition cr : ascii := Ascii.ascii_of_nat 13.
Definition lf : ascii := Ascii.ascii_of_nat 10.
Definition comma : ascii := Ascii.ascii_of_nat 44.

Definition chars (s : string) : list ascii := String.list_ascii_of_string s.

(** [QUOTE_MINIMAL]: a field is quoted when it contains the delimiter, the
    quote character or a character of the line terminator. *)
Definition special (c : ascii) : bool :=
  bool_decide (c = comma) || bool_decide (c = dquote) ||
  bool_decide (c = cr) || bool_decide (c = lf).

Definition needs_quote (s : string) : bool := existsb special (chars s).

(** [doublequote = True]: a quote inside a field is written twice. *)
Fixpoint double_quotes (s : string) : string :=
  match s with
  | EmptyString => EmptyString
  | String c rest =>
      if bool_decide (c = dquote)
      then String dquote (String dquote (double_quotes rest))
      else String c (double_quotes rest)
  end.

Definition csv_field (s : string) : string :=
  if needs_quote s
  then String dquote (double_quotes s) +:+ String dquote EmptyString
  else s.

Definition lineterminator : string := String cr (String lf EmptyString).

(** The text of one record, as [writer.writerow] hands it to [f.write]. *)
Definition csv_line (fields : list string) : string :=
  String.concat "," (csv_field <$> fields) +:+ lineterminator.

(** ** Dictionaries *)

(** The row is a dict literal with string keys and values; it is kept as
    an association list in insertion order. *)
Definition dict : Type := list (string * string).

Fixpoint dict_get (d : dict) (key restval : string) : string :=
  match d with
  | [] => restval
  | (k, v) :: d' => if decide (k = key) then v else dict_get d' key restval
  end.

Definition dict_keys (d : dict) : list string := fst <$> d.

(** [DictWriter._dict_to_list] with [extrasaction="raise"] and the empty
    [restval] *)
Definition _dict_to_list (fieldnames : list string) (rowdict : dict)
    : result (list string) :=
  if bool_decide (Forall (λ k, k ∈ fieldnames) (dict_keys rowdict))
  then Ok ((λ key, dict_get rowdict key EmptyString) <$> fieldnames)
  else Raise ValueError.

(** ** The free percentage *)

(** [(free / total * 100.0) if total else 0.0] *)
Definition free_percent (total free : N) : result float :=
  if (total =? 0)%N then Ok (Finite 0)
  else q ← int_truediv free total; Ok (fmul q 100).

(** ** The operating system *)

(** The first [k] bytes of a text. *)
Fixpoint string_take (k : nat) (s : string) : string :=
  match k, s with
  | S k', String c rest => String c (string_take k' rest)
  | _, _ => EmptyString
  end.

Record usage : Type := Usage { total : N; used : N; free : N }.

(** What one call observes of its environment. *)
Record os_env : Type := OsEnv {
  (** [os.path.expanduser("~")] *)
  home : string;
  (** the local date read by [datetime.date.today()] *)
  today : date;
  (** the local time read by [datetime.datetime.now()] *)
  now : datetime;
  (** what the operating system answers to [shutil.disk_usage] *)
  disk_usage : string → result usage;
  (** a refusal of [os.makedirs], such as missing permission *)
  makedirs_fault : string → option exn;
  (** a refusal of [open], such as missing permission *)
  open_fault : string → option exn;
  (** a failure while text is written to an open file, such as a full disk
      ([OSError]) or text that has no UTF-8 encoding ([UnicodeEncodeError],
      a [ValueError]): the exception, and how many bytes of the text have
      reached the file *)
  write_fault : string → string → option (exn * nat)
}.

(** The state of the operating system: the directories, the regular files
    with their contents, and the paths whose statistics were queried so far,
    latest first. *)
Record filesystem : Type := FileSystem {
  dirs : gset string;
  files : gmap string string;
  stat_log : list string
}.

(** Calls into the operating system change the file system and may raise;
    a change made before an exception stays. *)
Definition io (A : Type) : Type := filesystem → result A * filesystem.

Global Instance io_ret : MRet io := λ A a fs, (Ok a, fs).
Global Instance io_bind : MBind io := λ A B k m fs,
  match m fs with
  | (Ok a, fs') => k a fs'
  | (Raise e, fs') => (Raise e, fs')
  end.

Definition lift {A} (r : result A) : io A := λ fs, (r, fs).

Definition is_file (fs : filesystem) (p : string) : bool :=
  bool_decide (is_Some (files fs !! p)).

Definition is_dir (fs : filesystem) (p : string) : bool :=
  bool_decide (p ∈ dirs fs).

(** [os.path.exists] *)
Definition path_exists (p : string) : io bool :=
  λ fs, (Ok (is_dir fs p || is_file fs p), fs).

Section calls.
Context (env : os_env).

(** [os.makedirs(name, exist_ok=True)] *)
Definition makedirs (name : string) : io unit := λ fs,
  if bool_decide (name = EmptyString) then (Raise (OSError "ENOENT"), fs)
  else
    match makedirs_fault env name with
    | Some e => (Raise e, fs)
    | None =>
        if is_file fs name then (Raise (OSError "EEXIST"), fs)
        else if existsb (is_file fs) (ancestors name)
        then (Raise (OSError "ENOTDIR"), fs)
        else (Ok (), FileSystem (dirs fs ∪ list_to_set (ancestors name))
                                (files fs) (stat_log fs))
    end.

(** [open(path, "a", ...)] with the empty [newline], so that no line
    ending is translated, and [encoding="utf-8"]: the file is created
    empty when it is missing.  The handle is the path. *)
Definition open_append (path : string) : io string := λ fs,
  match open_fault env path with
  | Some e => (Raise e, fs)
  | None =>
      if is_dir fs path then (Raise (OSError "EISDIR"), fs)
      else (Ok path,
            match files fs !! path with
            | Some _ => fs
            | None => FileSystem (dirs fs) (<[path := EmptyString]> (files fs))
                                 (stat_log fs)
            end)
  end.

(** [f.write(text)] on a handle opened for append.  The text is encoded and
    buffered, and it reaches the file when the buffer is flushed, at the
    latest when the [with] block closes the handle.  Each of these steps can
    raise; the exception then leaves the [with] block, and the file keeps
    the bytes that had reached it. *)
Definition write (f : string) (text : string) : io unit := λ fs,
  let store t := FileSystem (dirs fs) (alter (λ c, c +:+ t) f (files fs))
                            (stat_log fs) in
  match write_fault env f text with
  | Some (e, k) => (Raise e, store (string_take k text))
  | None => (Ok (), store text)
  end.

(** [shutil.disk_usage(path)]: one query of the operating system. *)
Definition shutil_disk_usage (path : string) : io usage := λ fs,
  (disk_usage env path,
   FileSystem (dirs fs) (files fs) (path :: stat_log fs)).

(** [writer.writeheader()] and [writer.writerow(row)] of
    [csv.DictWriter(f, fieldnames=fieldnames)] *)
Definition writeheader (f : string) (fieldnames : list string) : io unit :=
  write f (csv_line fieldnames).

Definition writerow (f : string) (fieldnames : list string) (row : dict)
    : io unit :=
  values ← lift (_dict_to_list fieldnames row);
  write f (csv_line values).

Definition fieldnames : list string :=
  [ "timestamp"; "path"; "total_bytes"; "used_bytes"; "free_bytes";
    "free_percent"; "total_human"; "used_human"; "free_human" ].

(** Lines 64 to 78: the row built from one usage report. *)
Definition make_row (path_to_check : string) (u : usage) : result dict :=
  let '(total, used, free) := (total u, used u, free u) in
  free_pct ← free_percent total free;
  let timestamp := isoformat_seconds (now env) in
  total_human ← _bytes_to_human total;
  used_human ← _bytes_to_human used;
  free_human ← _bytes_to_human free;
  mret [ ("timestamp", timestamp);
         ("path", path_to_check);
         ("total_bytes", str total);
         ("used_bytes", str used);
         ("free_bytes", str free);
         ("free_percent", format_2f free_pct);
         ("total_human", total_human);
         ("used_human", used_human);
         ("free_human", free_human) ].

Definition update_daily_disk_csv (path_to_check out_dir : option string)
    : io string :=
  let home := home env in
  let path_to_check := default home path_to_check in
  let out_dir := default (path_join home "disk_reports") out_dir in
  _ ← makedirs out_dir;
  let date_str := strftime_Ymd (today env) in
  let filename := "disk_usage_" +:+ date_str +:+ ".csv" in
  let filepath := path_join out_dir filename in
  usage ← shutil_disk_usage path_to_check;
  row ← lift (make_row path_to_check usage);
  present ← path_exists filepath;
  let write_header := negb present in
  f ← open_append filepath;
  _ ← (if write_header then writeheader f fieldnames else mret ());
  _ ← writerow f fieldnames row;
  mret filepath.
End calls.

(** [float(n)] raises from [2^1024 - 2^970] on, the midpoint between the
    largest float and [2^1024]. *)
Definition float_limit : N := 2 ^ 1024 - 2 ^ 970.

(** ** Several calls in a row *)

(** One call: what it observes, and its [path_to_check] argument. *)
Definition call : Type := os_env * option string.

(** The calls of a caller that records with one [out_dir] again and again
    and stops at the first exception. *)
Fixpoint record_all (out_dir : option string) (calls : list call)
    : io (list string) :=
  match calls with
  | [] => mret []
  | c :: rest =>
      p ← update_daily_disk_csv c.1 c.2 out_dir;
      ps ← record_all out_dir rest;
      mret (p :: ps)
  end.

(** The path and the row of one call. *)
Definition target_of (home : string) (d : date) (out_dir : option string)
    : string :=
  path_join (default (path_join home "disk_reports") out_dir)
            ("disk_usage_" +:+ strftime_Ymd d +:+ ".csv").

Definition data_line (c : call) (line : string) : Prop :=
  ∃ u row values,
    disk_usage c.1 (default (home c.1) c.2) = Ok u ∧
    make_row c.1 (default (home c.1) c.2) u = Ok row ∧
    _dict_to_list fieldnames row = Ok values ∧
    line = csv_line values.

(** ** Notions used by the statements *)

(** The text that a call leaves in the day's file: what was there, or the
    header if the file is new, and then the row. *)
Definition appended (old : option string) (row_line : string) : string :=
  match old with
  | Some text => text +:+ row_line
  | None => csv_line fieldnames +:+ row_line
  end.

(** The patterns [YYYYMMDD] and [YYYY-MM-DD HH:MM:SS]. *)
Definition pattern_Ymd (d : date) : string :=
  digits 4 (year d) +:+ digits 2 (month d) +:+ digits 2 (day d).

Definition pattern_timestamp (t : datetime) : string :=
  digits 4 (year (dt_date t)) +:+ "-" +:+
  digits 2 (month (dt_date t)) +:+ "-" +:+
  digits 2 (day (dt_date t)) +:+ " " +:+
  digits 2 (hour t) +:+ ":" +:+
  digits 2 (minute t) +:+ ":" +:+
  digits 2 (second t).

Definition first_char (s : string) : option ascii :=
  match s with
  | String c _ => Some c
  | EmptyString => None
  end.

(** A machine to run the recorder on: 7 March 2024, 09:05:03, a home
    directory [/home/u] on a disk of 1000 GiB, and nothing else that can be
    queried. *)
Definition example_now : datetime :=
  DateTime (Date 2024 3 7) 9 5 3 123456.

Definition example_env : os_env :=
  OsEnv "/home/u" (Date 2024 3 7) example_now
        (λ p, if decide (p = "/home/u")
              then Ok (Usage 1073741824000 500000000000 573741824000)
              else Raise (OSError "ENOENT"))
        (λ _, None) (λ _, None) (λ _ _, None).

Definition empty_fs : filesystem := FileSystem ∅ ∅ [].
Definition is_digit (c : ascii) : bool :=
  existsb (λ d, bool_decide (c = d)) (chars "0123456789").
(** The text of several lines one after the other. *)
Definition text_of (lines : list string) : string :=
  foldr String.append EmptyString lines.

(** The example machine on a day whose file is already there and empty. *)
Definition example_target : string :=
  "/home/u/disk_reports/disk_usage_20240307.csv".

Definition touched_fs : filesystem :=
  FileSystem {[ "/home/u/disk_reports" ]} {[ example_target := EmptyString ]} [].

(** A second call of the same day, five seconds later. *)
Definition example_env_later : os_env :=
  OsEnv "/home/u" (Date 2024 3 7) (DateTime (Date 2024 3 7) 9 5 8 0)
        (λ _, Ok (Usage 1073741824000 500000001024 573741822976))
        (λ _, None) (λ _, None) (λ _ _, None).

(** The byte counts from which the loop of [_bytes_to_human] passes on to the
    next unit.  The last one is not [1024^6]: the counts from [2^60 - 64] on
    are rounded to [2^60] by [float(n)]. *)
Definition unit_thresholds : list N :=
  [1024; 1024 ^ 2; 1024 ^ 3; 1024 ^ 4; 1024 ^ 5; 2 ^ 60 - 64]%N.

Definition thresholds_passed (n : N) : nat :=
  length (filter (λ t, (t <= n)%N) unit_thresholds).

(** The [if __name__ == "__main__"] block: one call with the defaults; the
    result is the line handed to [print]. *)
Definition main (env : os_env) : io string :=
  out ← update_daily_disk_csv env None None;
  mret ("Wrote disk usage to: " +:+ out).

(** The example machine on the next day. *)
Definition example_env_next_day : os_env :=
  OsEnv "/home/u" (Date 2024 3 8) (DateTime (Date 2024 3 8) 9 5 3 0)
        (λ _, Ok (Usage 1073741824000 500000001024 573741822976))
        (λ _, None) (λ _, None) (λ _ _, None).


(** The example machine with a disk that fills up: the header still goes
    through, and of a row only the first 20 bytes. *)
Definition example_env_full_disk : os_env :=
  OsEnv "/home/u" (Date 2024 3 7) example_now
        (λ _, Ok (Usage 1073741824000 1073741823900 100))
        (λ _, None) (λ _, None)
        (λ _ text, match text with
                   | String "t" _ => None
                   | _ => Some (OSError "ENOSPC", 20%nat)
                   end).

(** The file as text.  A line ends with CR LF; the header line names the
    nine fields, and a row holds the nine field texts with commas between
    them. *)
Definition CRLF : string := String "013" (String "010" EmptyString).

Definition header_text : string :=
  "timestamp,path,total_bytes,used_bytes,free_bytes,free_percent," +:+
  "total_human,used_human,free_human" +:+ CRLF.

Definition row_text (timestamp path total_bytes used_bytes free_bytes
    free_percent total_human used_human free_human : string) : string :=
  timestamp +:+ "," +:+ path +:+ "," +:+ total_bytes +:+ "," +:+
  used_bytes +:+ "," +:+ free_bytes +:+ "," +:+ free_percent +:+ "," +:+
  total_human +:+ "," +:+ used_human +:+ "," +:+ free_human +:+ CRLF.

(** The row of one call: the time of the call, the path that was queried,
    in quotes if it holds a comma, a quote, CR or LF, and the three counts
    that were reported, as they are, as a percentage and in units. *)
Definition row_of (c : call) (line : string) : Prop :=
  let p := default (home c.1) c.2 in
  ∃ u pct total_human used_human free_human,
    disk_usage c.1 p = Ok u ∧
    free_percent (total u) (free u) = Ok pct ∧
    _bytes_to_human (total u) = Ok total_human ∧
    _bytes_to_human (used u) = Ok used_human ∧
    _bytes_to_human (free u) = Ok free_human ∧
    line = row_text (isoformat_seconds (now c.1))
                    (if needs_quote p
                     then String dquote (double_quotes p) +:+
                          String dquote EmptyString
                     else p)
                    (str (total u)) (str (used u)) (str (free u))
                    (format_2f pct) total_human used_human free_human.

(** * Properties *)

(** ** Rounding to the nearest integer *)

Lemma inject_Z_succ (n : Z) : (inject_Z (n + 1) == inject_Z n + 1)%Q.
Proof. by rewrite inject_Z_plus. Qed.

Lemma Qfloor_bounds (x : Q) :
  (inject_Z (Qfloor x) <= x ∧ x < inject_Z (Qfloor x) + 1)%Q.
Proof.
  split; [apply Qfloor_le|]. rewrite <- inject_Z_succ. apply Qlt_floor.
Qed.

Lemma round_half_even_cases (x : Q) :
  ((x < inject_Z (Qfloor x) + (1 # 2))%Q ∧ round_half_even x = Qfloor x) ∨
  ((inject_Z (Qfloor x) + (1 # 2) < x)%Q ∧
   round_half_even x = Qfloor x + 1) ∨
  ((x == inject_Z (Qfloor x) + (1 # 2))%Q ∧
   (round_half_even x = Qfloor x ∨ round_half_even x = Qfloor x + 1) ∧
   Z.even (round_half_even x) = true).
Proof.
  unfold round_half_even. cbv zeta.
  destruct (Qcompare_spec (x - inject_Z (Qfloor x)) (1 # 2)) as [H|H|H].
  - right; right. split; [lra|].
    destruct (Z.even (Qfloor x)) eqn:E; [auto|]. split; [auto|].
    rewrite Z.even_add, E. done.
  - left. split; [lra|done].
  - right; left. split; [lra|done].
Qed.

Lemma round_half_even_near (x : Q) :
  (inject_Z (round_half_even x) - (1 # 2) <= x
   ∧ x <= inject_Z (round_half_even x) + (1 # 2))%Q.
Proof.
  pose proof (Qfloor_bounds x) as [Hl Hu].
  destruct (round_half_even_cases x) as [[H ->]|[[H ->]|[H [[-> | ->] _]]]];
    rewrite ?inject_Z_succ; lra.
Qed.

Lemma Qfloor_unique (x : Q) (n : Z) :
  (inject_Z n <= x)%Q → (x < inject_Z n + 1)%Q → Qfloor x = n.
Proof.
  intros Hl Hu. pose proof (Qfloor_bounds x) as [Hl' Hu'].
  assert (inject_Z n < inject_Z (Qfloor x) + 1)%Q as H1 by lra.
  assert (inject_Z (Qfloor x) < inject_Z n + 1)%Q as H2 by lra.
  rewrite <- inject_Z_succ in H1, H2. rewrite <- Zlt_Qlt in H1, H2. lia.
Qed.

Lemma round_half_even_Z (n : Z) : round_half_even (inject_Z n) = n.
Proof.
  unfold round_half_even. rewrite Qfloor_Z.
  destruct (Qcompare_spec (inject_Z n - inject_Z n) (1 # 2)) as [H|H|H];
    [lra|done|lra].
Qed.

Global Instance round_half_even_proper : Proper (Qeq ==> eq) round_half_even.
Proof.
  intros x y E. unfold round_half_even.
  assert (Qfloor x = Qfloor y) as -> by (by apply Qfloor_comp).
  by rewrite E.
Qed.

Lemma round_half_even_mono (x y : Q) :
  (x <= y)%Q → round_half_even x <= round_half_even y.
Proof.
  intros Hxy.
  pose proof (Qfloor_resp_le _ _ Hxy) as Hf.
  pose proof (Qfloor_bounds x) as [Hxl Hxu].
  pose proof (Qfloor_bounds y) as [Hyl Hyu].
  destruct (decide (Qfloor x = Qfloor y)) as [E|NE].
  - destruct (round_half_even_cases x) as [[Hx Rx]|[[Hx Rx]|[Hx [Rx Ex]]]];
    destruct (round_half_even_cases y) as [[Hy Ry]|[[Hy Ry]|[Hy [Ry Ey]]]];
      rewrite E in *; try lia; try lra.
    destruct Rx as [Rx|Rx], Ry as [Ry|Ry]; try lia.
    rewrite Rx in Ex. rewrite Ry in Ey. rewrite Z.even_add in Ex.
    rewrite Ey in Ex. done.
  - assert (round_half_even x <= Qfloor x + 1) as H1.
    { destruct (round_half_even_cases x) as [[_ ->]|[[_ ->]|[_ [[-> | ->] _]]]]; lia. }
    assert (Qfloor y <= round_half_even y) as H2.
    { destruct (round_half_even_cases y) as [[_ ->]|[[_ ->]|[_ [[-> | ->] _]]]]; lia. }
    lia.
Qed.

(** ** Powers of two *)

Lemma pow2_pos (e : Z) : (0 < 2 ^ e)%Q.
Proof. by apply Qpower_0_lt. Qed.

Lemma pow2_add (a b : Z) : (2 ^ (a + b) == 2 ^ a * 2 ^ b)%Q.
Proof. by apply Qpower_plus. Qed.

Lemma pow2_succ (a : Z) : (2 ^ (a + 1) == 2 * 2 ^ a)%Q.
Proof. rewrite pow2_add. change (2 ^ 1)%Q with 2%Q. ring. Qed.

Lemma pow2_pred (a : Z) : (2 ^ a == 2 * 2 ^ (a - 1))%Q.
Proof. rewrite <- pow2_succ. by replace (a - 1 + 1) with a by lia. Qed.

Lemma pow2_le (a b : Z) : a <= b → (2 ^ a <= 2 ^ b)%Q.
Proof. intros. by apply Qpower_le_compat_l. Qed.

Lemma pow2_lt (a b : Z) : a < b → (2 ^ a < 2 ^ b)%Q.
Proof. intros. by apply Qpower_lt_compat_l. Qed.

Lemma pow2_lt_inv (a b : Z) : (2 ^ a < 2 ^ b)%Q → a < b.
Proof. intros. by apply (Qpower_lt_compat_l_inv 2). Qed.

Lemma pow2_inject (n : Z) : 0 <= n → (inject_Z (2 ^ n) == 2 ^ n)%Q.
Proof. intros. by rewrite Zpower_Qpower. Qed.

(** ** The binary logarithm *)

Lemma quotient_bracket (X P D A B L : Q) :
  (A <= P → P < 2 * A → B <= D → D < 2 * B → 0 < B → 0 < L →
   A == L * B → X * D == P → 0 < X →
   (L <= X → X < 2 * L) ∧ (X < L → L <= 2 * X))%Q.
Proof. intros. split; intros; nra. Qed.

Lemma ilog2_spec (x : Q) :
  (0 < x)%Q → (2 ^ ilog2 x <= x ∧ x < 2 ^ (ilog2 x + 1))%Q.
Proof.
  intros Hx. unfold ilog2. cbv zeta.
  destruct x as [p q]. cbn [Qnum Qden].
  assert (0 < p) as Hp by (revert Hx; unfold Qlt; cbn; lia).
  set (a := Z.log2 p). set (b := Z.log2 (Z.pos q)).
  destruct (Z.log2_spec p Hp) as [Ha1 Ha2]. fold a in Ha1, Ha2.
  destruct (Z.log2_spec (Z.pos q) eq_refl) as [Hb1 Hb2]. fold b in Hb1, Hb2.
  assert (0 <= a) as Ha0 by apply Z.log2_nonneg.
  assert (0 <= b) as Hb0 by apply Z.log2_nonneg.
  rewrite Zle_Qle, pow2_inject in Ha1, Hb1 by done.
  rewrite Zlt_Qlt, pow2_inject in Ha2, Hb2 by (unfold Z.succ; lia).
  unfold Z.succ in *. rewrite pow2_succ in Ha2, Hb2.
  pose proof (pow2_pos b) as HB. pose proof (pow2_pos (a - b)) as HL.
  assert (2 ^ a == 2 ^ (a - b) * 2 ^ b)%Q as HAB.
  { rewrite <- pow2_add. by replace (a - b + b) with a by lia. }
  assert ((p # q) * inject_Z (Z.pos q) == inject_Z p)%Q as Hmul.
  { rewrite (Qmake_Qdiv p q). field. by intros H; revert H; compute. }
  destruct (quotient_bracket _ _ _ _ _ _ Ha1 Ha2 Hb1 Hb2 HB HL HAB Hmul Hx)
    as [Hge Hlt].
  destruct (Qle_bool (2 ^ (a - b)) (p # q)) eqn:Hc.
  - apply Qle_bool_iff in Hc. rewrite pow2_succ. auto.
  - assert (p # q < 2 ^ (a - b))%Q as Hlt'.
    { apply Qnot_le_lt. intros H. apply Qle_bool_iff in H. congruence. }
    replace (a - b - 1 + 1) with (a - b) by lia. split; [|done].
    specialize (Hlt Hlt'). rewrite (pow2_pred (a - b)) in Hlt. lra.
Qed.

Lemma ilog2_unique (x : Q) (l : Z) :
  (2 ^ l <= x)%Q → (x < 2 ^ (l + 1))%Q → ilog2 x = l.
Proof.
  intros Hl Hu. pose proof (pow2_pos l).
  destruct (ilog2_spec x) as [Hl' Hu']; [lra|].
  assert (ilog2 x < l + 1) by (apply pow2_lt_inv; lra).
  assert (l < ilog2 x + 1) by (apply pow2_lt_inv; lra).
  lia.
Qed.

Lemma ilog2_proper (x y : Q) : (0 < x)%Q → (x == y)%Q → ilog2 x = ilog2 y.
Proof.
  intros Hx E. destruct (ilog2_spec x Hx).
  symmetry. apply ilog2_unique; lra.
Qed.

Lemma ilog2_mono (x y : Q) : (0 < x)%Q → (x <= y)%Q → ilog2 x <= ilog2 y.
Proof.
  intros Hx Hxy. destruct (ilog2_spec x Hx). destruct (ilog2_spec y); [lra|].
  assert (ilog2 x < ilog2 y + 1) by (apply pow2_lt_inv; lra). lia.
Qed.

(** ** Rounding to binary64 *)

Lemma ulp_exp_ge (x : Q) : -1074 <= ulp_exp x.
Proof. unfold ulp_exp. lia. Qed.

Lemma ulp_exp_proper (x y : Q) : (0 < x)%Q → (x == y)%Q → ulp_exp x = ulp_exp y.
Proof. intros. unfold ulp_exp. by rewrite (ilog2_proper x y). Qed.

Lemma ulp_exp_mono (x y : Q) : (0 < x)%Q → (x <= y)%Q → ulp_exp x <= ulp_exp y.
Proof. intros Hx Hxy. unfold ulp_exp. pose proof (ilog2_mono x y Hx Hxy). lia. Qed.

Lemma round_to_ulp_proper (x y : Q) :
  (0 < x)%Q → (x == y)%Q → (round_to_ulp x == round_to_ulp y)%Q.
Proof.
  intros Hx E. unfold round_to_ulp. cbv zeta.
  rewrite (ulp_exp_proper x y) by done. by rewrite E.
Qed.

Lemma div_pow2_le (x y : Q) (e : Z) : (x <= y)%Q → (x / 2 ^ e <= y / 2 ^ e)%Q.
Proof.
  intros H. pose proof (pow2_pos e). apply Qle_shift_div_l; [done|].
  assert (x / 2 ^ e * 2 ^ e == x)%Q as Hr by (field; lra). by rewrite Hr.
Qed.

Lemma div_pow2 (a e : Z) : (2 ^ a / 2 ^ e == 2 ^ (a - e))%Q.
Proof.
  pose proof (pow2_pos e).
  assert (2 ^ a == 2 ^ (a - e) * 2 ^ e)%Q as Hr.
  { rewrite <- pow2_add. by replace (a - e + e) with a by lia. }
  rewrite Hr. field. lra.
Qed.

(** Rounding a value at or above a power of two stays at or above it, and
    rounding a value at or below one stays at or below it, provided the
    power is a multiple of the unit. *)
Lemma round_to_ulp_ge_pow2 (x : Q) (a : Z) :
  ulp_exp x <= a → (2 ^ a <= x)%Q → (2 ^ a <= round_to_ulp x)%Q.
Proof.
  intros He Hx. unfold round_to_ulp. cbv zeta.
  set (e := ulp_exp x) in *. pose proof (pow2_pos e) as Hpe.
  assert (2 ^ (a - e) <= round_half_even (x / 2 ^ e)) as Hm.
  { rewrite <- (round_half_even_Z (2 ^ (a - e))).
    apply round_half_even_mono.
    rewrite pow2_inject, <- div_pow2 by lia. by apply div_pow2_le. }
  rewrite Zle_Qle, pow2_inject in Hm by lia.
  assert (2 ^ a == 2 ^ (a - e) * 2 ^ e)%Q as Hr.
  { rewrite <- pow2_add. by replace (a - e + e) with a by lia. }
  rewrite Hr. by apply Qmult_le_r.
Qed.

Lemma round_to_ulp_le_pow2 (x : Q) (a : Z) :
  ulp_exp x <= a → (x <= 2 ^ a)%Q → (round_to_ulp x <= 2 ^ a)%Q.
Proof.
  intros He Hx. unfold round_to_ulp. cbv zeta.
  set (e := ulp_exp x) in *. pose proof (pow2_pos e) as Hpe.
  assert (round_half_even (x / 2 ^ e) <= 2 ^ (a - e)) as Hm.
  { rewrite <- (round_half_even_Z (2 ^ (a - e))).
    apply round_half_even_mono.
    rewrite pow2_inject, <- div_pow2 by lia. by apply div_pow2_le. }
  rewrite Zle_Qle, pow2_inject in Hm by lia.
  assert (2 ^ a == 2 ^ (a - e) * 2 ^ e)%Q as Hr.
  { rewrite <- pow2_add. by replace (a - e + e) with a by lia. }
  rewrite Hr. by apply Qmult_le_r.
Qed.

Lemma round_to_ulp_mono (x y : Q) :
  (0 < x)%Q → (x <= y)%Q → (round_to_ulp x <= round_to_ulp y)%Q.
Proof.
  intros Hx Hxy.
  pose proof (ulp_exp_mono x y Hx Hxy) as He.
  destruct (decide (ulp_exp x = ulp_exp y)) as [E|NE].
  - unfold round_to_ulp. cbv zeta. rewrite E.
    apply Qmult_le_r; [apply pow2_pos|]. rewrite <- Zle_Qle.
    apply round_half_even_mono. by apply div_pow2_le.
  - assert (0 < y)%Q as Hy by lra.
    destruct (ilog2_spec x Hx) as [_ Hxu].
    destruct (ilog2_spec y Hy) as [Hyl _].
    unfold ulp_exp in He, NE.
    apply Qle_trans with (2 ^ ilog2 y)%Q.
    + apply round_to_ulp_le_pow2; [unfold ulp_exp; lia|].
      apply Qle_trans with (2 ^ (ilog2 x + 1))%Q; [lra|]. apply pow2_le. lia.
    + apply round_to_ulp_ge_pow2; [unfold ulp_exp; lia|done].
Qed.

Lemma b64_round_pos (x : Q) :
  (0 < x)%Q →
  b64_round x =
    if Qle_bool (2 ^ 1024) (round_to_ulp x) then Inf else Finite (round_to_ulp x).
Proof.
  intros Hx. unfold b64_round.
  destruct (Qle_bool x 0) eqn:E; [|done].
  apply Qle_bool_iff in E. lra.
Qed.

Lemma b64_round_nonpos (x : Q) : (x <= 0)%Q → b64_round x = Finite 0.
Proof.
  intros Hx. unfold b64_round. apply Qle_bool_iff in Hx. by rewrite Hx.
Qed.

Lemma round_to_ulp_nonneg (x : Q) : (0 <= x)%Q → (0 <= round_to_ulp x)%Q.
Proof.
  intros Hx. unfold round_to_ulp. cbv zeta.
  pose proof (pow2_pos (ulp_exp x)) as Hp.
  apply Qmult_le_0_compat; [|lra].
  change 0%Q with (inject_Z 0). rewrite <- Zle_Qle.
  rewrite <- (round_half_even_Z 0). apply round_half_even_mono.
  change (inject_Z 0) with 0%Q. apply Qle_shift_div_l; [done|]. lra.
Qed.

Lemma Qle_bool_false (x y : Q) : Qle_bool x y = false ↔ (y < x)%Q.
Proof.
  split.
  - intros E. apply Qnot_le_lt. intros H. apply Qle_bool_iff in H. congruence.
  - intros H. destruct (Qle_bool x y) eqn:E; [|done].
    apply Qle_bool_iff in E. lra.
Qed.

Lemma b64_round_mono (x y : Q) : (x <= y)%Q → fle (b64_round x) (b64_round y).
Proof.
  intros Hxy. destruct (Qlt_le_dec 0 x) as [Hx|Hx].
  - rewrite !b64_round_pos by lra.
    pose proof (round_to_ulp_mono x y Hx Hxy) as Hm.
    destruct (Qle_bool (2 ^ 1024) (round_to_ulp y)) eqn:Ey.
    { by destruct (Qle_bool _ (round_to_ulp x)). }
    apply Qle_bool_false in Ey.
    destruct (Qle_bool (2 ^ 1024) (round_to_ulp x)) eqn:Ex; [|done].
    apply Qle_bool_iff in Ex. simpl. lra.
  - rewrite (b64_round_nonpos x) by done.
    destruct (Qlt_le_dec 0 y) as [Hy|Hy].
    + rewrite b64_round_pos by done.
      destruct (Qle_bool _ _); [done|]. simpl.
      apply round_to_ulp_nonneg. lra.
    + rewrite (b64_round_nonpos y) by done. simpl. lra.
Qed.

Lemma b64_round_proper (x y : Q) : (x == y)%Q → feq (b64_round x) (b64_round y).
Proof.
  intros E. destruct (Qlt_le_dec 0 x) as [Hx|Hx].
  - rewrite !b64_round_pos by lra.
    pose proof (round_to_ulp_proper x y Hx E) as Hr. rewrite Hr.
    by destruct (Qle_bool _ _).
  - rewrite !b64_round_nonpos by lra. simpl. lra.
Qed.

(** ** Float operations are monotone *)

Lemma fle_refl (x : float) : fle x x.
Proof. destruct x; simpl; [lra|done]. Qed.

Lemma fdiv_mono (x y : float) (c : Q) :
  (0 < c)%Q → fle x y → fle (fdiv x c) (fdiv y c).
Proof.
  intros Hc. destruct x as [a|], y as [b|]; simpl; try done.
  - intros Hab. apply b64_round_mono.
    apply Qle_shift_div_l; [done|].
    assert (a / c * c == a)%Q as Hr by (field; lra). by rewrite Hr.
  - intros _. by destruct (b64_round _).
Qed.

Lemma fmul_mono (x y : float) (c : Q) :
  (0 < c)%Q → fle x y → fle (fmul x c) (fmul y c).
Proof.
  intros Hc. destruct x as [a|], y as [b|]; simpl; try done.
  - intros Hab. apply b64_round_mono. by apply Qmult_le_r.
  - intros _. by destruct (b64_round _).
Qed.

Lemma flt_anti (x y : float) (c : Q) : fle x y → flt y c = true → flt x c = true.
Proof.
  destruct x as [a|], y as [b|]; simpl; try done.
  intros Hab Hb. apply negb_true_iff in Hb. apply Qle_bool_false in Hb.
  apply negb_true_iff, Qle_bool_false. lra.
Qed.

(** ** The unit loop *)

Lemma scale_steps_mono (l : list string) (x y : float) :
  fle x y → (scale_steps l x ≤ scale_steps l y)%nat.
Proof.
  revert x y. induction l as [|u l IH]; intros x y Hxy; simpl; [done|].
  destruct (flt y 1024) eqn:Ey.
  - by rewrite (flt_anti x y 1024 Hxy Ey).
  - destruct (flt x 1024); [lia|].
    apply le_n_S, IH, fdiv_mono; [reflexivity|done].
Qed.

Lemma scale_steps_le (l : list string) (x : float) :
  (scale_steps l x ≤ length l)%nat.
Proof.
  revert x. induction l as [|u l IH]; intros x; simpl; [done|].
  destruct (flt x 1024); [lia|]. apply le_n_S, IH.
Qed.

Lemma scale_unit (l : list string) (x : float) :
  (scale l x).2 = nth (scale_steps l x) (l ++ ["EB"]) "EB".
Proof.
  revert x. induction l as [|u l IH]; intros x; simpl; [done|].
  destruct (flt x 1024); [done|]. apply IH.
Qed.

Lemma unit_rank_nth (i : nat) :
  (i ≤ 6)%nat → unit_rank (nth i (units ++ ["EB"]) "EB") = i.
Proof.
  intros Hi. do 7 (destruct i as [|i]; [reflexivity|]). lia.
Qed.

Lemma unit_rank_scale (x : float) :
  unit_rank (scale units x).2 = scale_steps units x.
Proof. rewrite scale_unit. apply unit_rank_nth, (scale_steps_le units). Qed.

(** ** Conversion of integers *)

Lemma N2Q_le (m n : N) : (m <= n)%N → (N2Q m <= N2Q n)%Q.
Proof. intros. unfold N2Q. rewrite <- Zle_Qle. lia. Qed.

Lemma N2Q_nonneg (n : N) : (0 <= N2Q n)%Q.
Proof. apply (N2Q_le 0 n). lia. Qed.

Lemma float_of_int_below (n : N) :
  (n < float_limit)%N → ∃ q, float_of_int n = Ok (Finite q).
Proof.
  intros Hn. unfold float_of_int.
  assert (fle (b64_round (N2Q n)) (b64_round (N2Q (float_limit - 1)))) as H.
  { apply b64_round_mono, N2Q_le. lia. }
  destruct (b64_round (N2Q (float_limit - 1))) as [q0|] eqn:E0.
  - clear E0. destruct (b64_round (N2Q n)) as [q|]; [eauto|contradiction].
  - vm_compute in E0. discriminate.
Qed.

Lemma float_of_int_above (n : N) :
  (float_limit <= n)%N → float_of_int n = Raise OverflowError.
Proof.
  intros Hn. unfold float_of_int.
  assert (fle (b64_round (N2Q float_limit)) (b64_round (N2Q n))) as H.
  { by apply b64_round_mono, N2Q_le. }
  assert (b64_round (N2Q float_limit) = Inf) as E0 by (vm_compute; reflexivity).
  rewrite E0 in H. clear E0. destruct (b64_round (N2Q n)); [contradiction|reflexivity].
Qed.

Lemma float_of_int_mono (m n : N) (x y : float) :
  (m <= n)%N → float_of_int m = Ok x → float_of_int n = Ok y → fle x y.
Proof.
  unfold float_of_int. intros Hmn Hx Hy.
  pose proof (b64_round_mono _ _ (N2Q_le m n Hmn)) as H.
  destruct (b64_round (N2Q m)), (b64_round (N2Q n)); by simplify_eq.
Qed.

Lemma bytes_to_human_unit (n : N) :
  _bytes_to_human n =
    value ← float_of_int n;
    mret (format_2f (scale units value).1 +:+ " " +:+ (scale units value).2).
Proof.
  unfold _bytes_to_human. destruct (float_of_int n) as [x|]; [|done].
  cbn [mbind result_bind mret result_ret]. by destruct (scale units x).
Qed.

(** C5: for m < n the unit chosen for n is never earlier in the progression
    B, KB, MB, GB, TB, PB, EB than the unit chosen for m.  Both conversions
    return unless n has left the range of floats, from [float_limit] on,
    where [float(n)] raises. *)
Theorem bytes_to_human_unit_monotone (m n : N) :
  (m < n)%N →
  match _bytes_to_human m, _bytes_to_human n with
  | Ok sm, Ok sn =>
      ∃ xm xn um un,
        sm = format_2f xm +:+ " " +:+ um ∧ unit_of m = Ok um ∧
        sn = format_2f xn +:+ " " +:+ un ∧ unit_of n = Ok un ∧
        (unit_rank um ≤ unit_rank un)%nat
  | _, Raise _ => (float_limit <= n)%N
  | Raise _, Ok _ => False
  end.
Proof.
  intros Hmn. rewrite !bytes_to_human_unit. unfold unit_of.
  destruct (decide (n < float_limit)%N) as [Hn|Hn].
  - destruct (float_of_int_below n Hn) as [y Ey].
    destruct (float_of_int_below m) as [x Ex]; [lia|].
    pose proof (float_of_int_mono m n _ _ ltac:(lia) Ex Ey) as Hxy.
    rewrite Ex, Ey. cbn [mbind result_bind mret result_ret].
    eexists _, _, _, _. repeat split.
    rewrite !unit_rank_scale. by apply scale_steps_mono.
  - rewrite (float_of_int_above n) by lia. cbn [mbind result_bind].
    destruct (float_of_int m); cbn [mbind result_bind mret result_ret]; lia.
Qed.

Lemma bytes_to_human_unit_monotone_witness :
  (1023 < 1024)%N ∧
  match _bytes_to_human 1023, _bytes_to_human 1024 with
  | Ok sm, Ok sn =>
      ∃ xm xn um un,
        sm = format_2f xm +:+ " " +:+ um ∧ unit_of 1023 = Ok um ∧
        sn = format_2f xn +:+ " " +:+ un ∧ unit_of 1024 = Ok un ∧
        (unit_rank um ≤ unit_rank un)%nat
  | _, Raise _ => (float_limit <= 1024)%N
  | Raise _, Ok _ => False
  end.
Proof.
  assert (1023 < 1024)%N as H by lia.
  split; [exact H|]. exact (bytes_to_human_unit_monotone 1023 1024 H).
Defined.

(** ** Small byte counts *)

Lemma N_lt_elem_of_seq (n : N) (k : nat) :
  (n < N.of_nat k)%N → n ∈ (N.of_nat <$> seq 0 k).
Proof.
  intros H. apply list_elem_of_fmap. exists (N.to_nat n).
  split; [lia|]. apply elem_of_seq. lia.
Qed.

(** C4: for every n < 1024 the conversion returns the decimal text of n
    followed by [.00 B]. *)
Theorem bytes_to_human_below_1024 (n : N) :
  (n < 1024)%N → _bytes_to_human n = Ok (str n +:+ ".00 B").
Proof.
  intros Hn.
  assert (Forall (λ n, _bytes_to_human n = Ok (str n +:+ ".00 B"))
                 (N.of_nat <$> seq 0 1024)) as Hall.
  { refine (bool_decide_unpack _ _). vm_compute. exact I. }
  rewrite Forall_forall in Hall. apply Hall.
  by apply (N_lt_elem_of_seq n 1024).
Qed.

Lemma bytes_to_human_below_1024_witness :
  (512 < 1024)%N ∧ _bytes_to_human 512 = Ok "512.00 B".
Proof.
  assert (512 < 1024)%N as H by lia.
  split; [exact H|]. exact (bytes_to_human_below_1024 512 H).
Defined.

(** ** The rounding error *)

Lemma round_to_ulp_error (x : Q) :
  (round_to_ulp x - 2 ^ (ulp_exp x - 1) <= x
   ∧ x <= round_to_ulp x + 2 ^ (ulp_exp x - 1))%Q.
Proof.
  unfold round_to_ulp. cbv zeta. set (e := ulp_exp x).
  pose proof (round_half_even_near (x / 2 ^ e)) as [Hl Hu].
  pose proof (pow2_pos e) as He. pose proof (pow2_pred e) as Hh.
  assert (x == x / 2 ^ e * 2 ^ e)%Q as Hx by (field; lra).
  revert Hl Hu Hx He Hh.
  generalize (inject_Z (round_half_even (x / 2 ^ e))) (x / 2 ^ e)%Q
             (2 ^ e)%Q (2 ^ (e - 1))%Q.
  intros m t E H Hl Hu Hx He Hh. split; nra.
Qed.

Lemma ulp_exp_le (x : Q) (k : Z) :
  (0 < x)%Q → (x < 2 ^ (k + 53))%Q → -1074 <= k → ulp_exp x <= k.
Proof.
  intros Hx Hlt Hk. destruct (ilog2_spec x Hx) as [Hl _].
  assert (ilog2 x < k + 53) by (apply pow2_lt_inv; lra).
  unfold ulp_exp. lia.
Qed.

(** Below [2^(k+53)] the result is finite and within [2^(k-1)]. *)
Lemma b64_round_error (x : Q) (k : Z) :
  (0 <= x)%Q → (x < 2 ^ (k + 53))%Q → -1074 <= k <= 900 →
  ∃ y, b64_round x = Finite y ∧ (0 <= y)%Q ∧
       (y - 2 ^ (k - 1) <= x ∧ x <= y + 2 ^ (k - 1))%Q.
Proof.
  intros Hx Hlt Hk. pose proof (pow2_pos (k - 1)) as Hp.
  destruct (Qlt_le_dec 0 x) as [Hpos|Hz].
  - rewrite b64_round_pos by done.
    pose proof (ulp_exp_le x k Hpos Hlt ltac:(lia)) as He.
    pose proof (round_to_ulp_error x) as [Hl Hu].
    pose proof (pow2_le (ulp_exp x - 1) (k - 1) ltac:(lia)) as Hle.
    pose proof (round_to_ulp_nonneg x Hx) as Hy.
    assert (round_to_ulp x < 2 ^ 1024)%Q as Hfin.
    { pose proof (pow2_le (k + 53) 1023 ltac:(lia)).
      pose proof (pow2_le (k - 1) 1023 ltac:(lia)).
      pose proof (pow2_succ 1023) as Hs. change (1023 + 1) with 1024 in Hs.
      lra. }
    apply Qle_bool_false in Hfin. rewrite Hfin.
    eexists. split; [done|]. split; [done|]. lra.
  - rewrite b64_round_nonpos by done. exists 0%Q. split; [done|]. lra.
Qed.

Lemma b64_round_le_const (x c : Q) (y : Q) :
  (x <= c)%Q → b64_round c = Finite y → ∃ a, b64_round x = Finite a ∧ (a <= y)%Q.
Proof.
  intros Hxc Hc. pose proof (b64_round_mono x c Hxc) as H. rewrite Hc in H.
  destruct (b64_round x) as [a|]; [eauto|contradiction].
Qed.

Lemma b64_round_nonneg (x a : Q) :
  (0 <= x)%Q → b64_round x = Finite a → (0 <= a)%Q.
Proof.
  intros Hx Ha. pose proof (b64_round_mono 0 x Hx) as H.
  rewrite Ha in H. by rewrite (b64_round_nonpos 0) in H.
Qed.

Lemma hundredths_mono (x y : Q) : (x <= y)%Q → hundredths x <= hundredths y.
Proof. intros. apply round_half_even_mono. lra. Qed.

(** ** The free percentage *)

Lemma N2Q_pos (n : N) : (0 < n)%N → (0 < N2Q n)%Q.
Proof. intros. unfold N2Q. change 0%Q with (inject_Z 0). rewrite <- Zlt_Qlt. lia. Qed.

Lemma quotient_le_1 (free total : N) :
  (0 < total)%N → (free <= total)%N →
  (0 <= N2Q free / N2Q total ∧ N2Q free / N2Q total <= 1)%Q.
Proof.
  intros Ht Hf. pose proof (N2Q_pos total Ht). pose proof (N2Q_nonneg free).
  pose proof (N2Q_le free total Hf). split.
  - apply Qle_shift_div_l; [done|]. lra.
  - apply Qle_shift_div_r; [done|]. lra.
Qed.

Lemma free_percent_zero (free : N) : free_percent 0 free = Ok (Finite 0).
Proof. done. Qed.

Lemma free_percent_pos (total free : N) :
  (0 < total)%N →
  free_percent total free =
    match b64_round (N2Q free / N2Q total) with
    | Finite q => Ok (b64_round (q * 100))
    | Inf => Raise OverflowError
    end.
Proof.
  intros Ht. unfold free_percent, int_truediv.
  destruct (N.eqb_spec total 0) as [->|_]; [lia|].
  by destruct (b64_round _).
Qed.

Lemma make_row_free_percent (env : os_env) (path : string) (u : usage)
    (row : dict) :
  make_row env path u = Ok row →
  ∃ x, free_percent (total u) (free u) = Ok x ∧
       dict_get row "free_percent" EmptyString = format_2f x.
Proof.
  unfold make_row. destruct (free_percent _ _) as [x|]; [|done].
  cbn [mbind result_bind mret result_ret].
  destruct (_bytes_to_human (total u)); [|done].
  destruct (_bytes_to_human (used u)); [|done].
  destruct (_bytes_to_human (free u)); [|done].
  cbn [mbind result_bind mret result_ret]. intros [= <-]. by exists x.
Qed.

Lemma b64_round_1 : ∃ y, b64_round 1 = Finite y ∧ (y == 1)%Q.
Proof. eexists. split; [vm_compute; reflexivity|]. by vm_compute. Qed.

Lemma b64_round_100 : ∃ y, b64_round 100 = Finite y ∧ (y == 100)%Q.
Proof. eexists. split; [vm_compute; reflexivity|]. by vm_compute. Qed.

Lemma free_percent_le_100 (total free : N) :
  (0 < total)%N → (free <= total)%N →
  ∃ x, free_percent total free = Ok (Finite x) ∧ (0 <= x ∧ x <= 100)%Q.
Proof.
  intros Ht Hf. rewrite free_percent_pos by done.
  destruct (quotient_le_1 free total Ht Hf) as [Hq0 Hq1].
  destruct b64_round_1 as (y1 & E1 & H1).
  destruct (b64_round_le_const _ 1 y1 Hq1 E1) as (a & Ea & Ha).
  pose proof (b64_round_nonneg _ a Hq0 Ea) as Ha0. rewrite Ea.
  destruct b64_round_100 as (y100 & E100 & H100).
  destruct (b64_round_le_const (a * 100) 100 y100 ltac:(lra) E100)
    as (b & Eb & Hb).
  pose proof (b64_round_nonneg (a * 100) b ltac:(lra) Eb) as Hb0.
  rewrite Eb. exists b. split; [done|]. lra.
Qed.

Lemma free_percent_ge_100 (total free : N) (x : float) :
  (0 < total)%N → (total < free)%N →
  free_percent total free = Ok x → fle (Finite 100) x.
Proof.
  intros Ht Hf. rewrite free_percent_pos by done.
  pose proof (N2Q_pos total Ht) as Hpos.
  assert (1 <= N2Q free / N2Q total)%Q as Hq.
  { apply Qle_shift_div_l; [done|].
    pose proof (N2Q_le total free ltac:(lia)). lra. }
  pose proof (b64_round_mono _ _ Hq) as Hm.
  destruct b64_round_1 as (y1 & E1 & H1). rewrite E1 in Hm.
  destruct (b64_round (N2Q free / N2Q total)) as [a|]; [|done].
  cbn [fle] in Hm. intros [= <-].
  assert (100 <= a * 100)%Q as Hq' by lra.
  pose proof (b64_round_mono _ _ Hq') as Hm'.
  destruct b64_round_100 as (y100 & E100 & H100). rewrite E100 in Hm'.
  destruct (b64_round (a * 100)) as [b|]; [|done].
  cbn [fle] in Hm' |- *. lra.
Qed.

(** C6, as amended: for [total = 0] the value written is 0.00; for a report
    with [total > 0] and [free <= total] the percentage is computed without
    an exception and the value written lies between 0.00 and 100.00; for a
    report with [free > total > 0] nothing holds the value down, and it is
    never below 100.00.  The value written is the [free_percent] field of
    the row. *)
Theorem free_percent_range (total free : N) :
  (total = 0%N →
   free_percent total free = Ok (Finite 0) ∧ hundredths 0 = 0) ∧
  ((0 < total)%N → (free <= total)%N →
   ∃ x, free_percent total free = Ok (Finite x) ∧
        0 <= hundredths x <= 10000) ∧
  (∀ env path used row,
     make_row env path (Usage total used free) = Ok row →
     ∃ x, free_percent total free = Ok x ∧
          dict_get row "free_percent" EmptyString = format_2f x) ∧
  ((0 < total)%N → (total < free)%N →
   ∀ x, free_percent total free = Ok x →
        fle (Finite 100) x ∧
        ∀ a, x = Finite a → 10000 <= hundredths a).
Proof.
  split; [by intros ->|]. split; [|split]; cycle 2.
  { intros Ht Hf x Hx.
    pose proof (free_percent_ge_100 total free x Ht Hf Hx) as Hge.
    split; [done|]. intros a ->. cbn [fle] in Hge.
    pose proof (hundredths_mono 100 a Hge).
    assert (hundredths 100 = 10000) as E1 by done. lia. }
  - intros Ht Hf.
    destruct (free_percent_le_100 total free Ht Hf) as (x & Ex & Hx0 & Hx1).
    exists x. split; [done|].
    pose proof (hundredths_mono 0 x Hx0). pose proof (hundredths_mono x 100 Hx1).
    assert (hundredths 0 = 0) as E0 by done.
    assert (hundredths 100 = 10000) as E1 by done. lia.
  - intros env path used row Hrow.
    apply (make_row_free_percent env path _ row Hrow).
Qed.

Lemma free_percent_range_witness :
  (free_percent 0 7 = Ok (Finite 0) ∧ hundredths 0 = 0) ∧
  (∃ x, free_percent 1073741824000 573741824000 = Ok (Finite x) ∧
        0 <= hundredths x <= 10000).
Proof.
  split.
  - apply (proj1 (free_percent_range 0 7)). reflexivity.
  - apply (proj1 (proj2 (free_percent_range 1073741824000 573741824000)));
      lia.
Defined.

(** C6, as stated, fails: nothing keeps a report with [free > total] from
    giving more than 100.00.  For total = 1 and free = 2 the field is
    200.00. *)
Lemma free_percent_above_100 :
  (0 < 1)%N ∧
  ∃ x, free_percent 1 2 = Ok (Finite x) ∧ ¬ (0 <= hundredths x <= 10000) ∧
       ∀ env, ∃ row, make_row env "/" (Usage 1 0 2) = Ok row ∧
                     dict_get row "free_percent" EmptyString = "200.00".
Proof.
  split; [lia|].
  eexists. split; [vm_compute; reflexivity|]. split.
  - assert (∀ z, z = 20000 → ¬ (0 <= z <= 10000)) as H by lia.
    apply H. by vm_compute.
  - intros env. eexists. split; [unfold make_row; vm_compute; reflexivity|].
    by vm_compute.
Qed.

(** C3, as amended: with [total = 0] the field is 0.00 and nothing is
    raised; with [total > 0] and [free <= total] nothing is raised and the
    value written is within 0.005 + 10^-12 of the exact [free/total*100]:
    the quotient and the product are rounded to binary64 before the two
    decimals are taken.  The value written is the [free_percent] field of
    the row. *)
Theorem free_percent_accuracy (total free : N) :
  (total = 0%N →
   free_percent total free = Ok (Finite 0) ∧ format_2f (Finite 0) = "0.00") ∧
  ((0 < total)%N → (free <= total)%N →
   ∃ x, free_percent total free = Ok (Finite x) ∧
        (Qabs (inject_Z (hundredths x) / 100 - N2Q free / N2Q total * 100)
         <= (1 # 200) + (1 # 1000000000000))%Q) ∧
  (∀ env path used row,
     make_row env path (Usage total used free) = Ok row →
     ∃ x, free_percent total free = Ok x ∧
          dict_get row "free_percent" EmptyString = format_2f x).
Proof.
  split; [by intros ->|]. split.
  - intros Ht Hf.
    destruct (quotient_le_1 free total Ht Hf) as [Hq0 Hq1].
    rewrite free_percent_pos by done.
    destruct (b64_round_error (N2Q free / N2Q total) (-52) Hq0)
      as (a & Ea & Ha0 & Hal & Hau);
      [change (2 ^ (-52 + 53))%Q with 2%Q; lra|lia|].
    change (2 ^ (-52 - 1))%Q with (1 # 9007199254740992)%Q in Hal, Hau.
    rewrite Ea.
    destruct (b64_round_error (a * 100) (-46)) as (b & Eb & Hb0 & Hbl & Hbu);
      [lra|change (2 ^ (-46 + 53))%Q with 128%Q; lra|lia|].
    change (2 ^ (-46 - 1))%Q with (1 # 140737488355328)%Q in Hbl, Hbu.
    rewrite Eb. exists b. split; [done|].
    pose proof (round_half_even_near (b * 100)) as [Hl Hu].
    fold (hundredths b) in Hl, Hu.
    apply Qabs_Qle_condition.
    revert Hl Hu Hal Hau Hbl Hbu.
    generalize (inject_Z (hundredths b)) (N2Q free / N2Q total)%Q.
    intros h q. intros. unfold Qdiv. change (/ 100)%Q with (1 # 100)%Q.
    split; lra.
  - intros env path used row Hrow.
    apply (make_row_free_percent env path _ row Hrow).
Qed.

Lemma free_percent_accuracy_witness :
  (free_percent 0 7 = Ok (Finite 0) ∧ format_2f (Finite 0) = "0.00") ∧
  (∃ x, free_percent 20000 3 = Ok (Finite x) ∧
        (Qabs (inject_Z (hundredths x) / 100 - N2Q 3 / N2Q 20000 * 100)
         <= (1 # 200) + (1 # 1000000000000))%Q).
Proof.
  split.
  - apply (proj1 (free_percent_accuracy 0 7)). reflexivity.
  - apply (proj1 (proj2 (free_percent_accuracy 20000 3))); lia.
Defined.

(** C3, as stated over the rationals, fails.  A disk of 2898383711836 bytes
    with 1530491519035 free has 52.805000000000017...% free, which is 52.81
    to two decimals; the source writes 52.80.  For total = 20000 and
    free = 3 the exact 0.015 is 0.02 to two decimals and the source writes
    0.01. *)
Lemma free_percent_not_exact :
  (∃ x, free_percent 2898383711836 1530491519035 = Ok x ∧
        format_2f x = "52.80" ∧
        exact_percent 1530491519035 2898383711836 = "52.81" ∧
        format_2f x ≠ exact_percent 1530491519035 2898383711836) ∧
  (∃ x, free_percent 20000 3 = Ok x ∧
        format_2f x = "0.01" ∧
        exact_percent 3 20000 = "0.02" ∧
        format_2f x ≠ exact_percent 3 20000).
Proof.
  split; eexists; (split; [vm_compute; reflexivity|]);
    (split; [by vm_compute|]); (split; [by vm_compute|]); by vm_compute.
Qed.


(** ** Running the recorder *)

Lemma io_bind_ok {A B} (m : io A) (k : A → io B) fs b fs' :
  (m ≫= k) fs = (Ok b, fs') →
  ∃ a fs1, m fs = (Ok a, fs1) ∧ k a fs1 = (Ok b, fs').
Proof.
  unfold mbind, io_bind. destruct (m fs) as [[a|e] fs1]; [eauto|done].
Qed.

Lemma io_bind_run {A B} (m : io A) (k : A → io B) fs a fs1 :
  m fs = (Ok a, fs1) → (m ≫= k) fs = k a fs1.
Proof. intros H. unfold mbind, io_bind. by rewrite H. Qed.

Lemma makedirs_ok env name fs fs' :
  makedirs env name fs = (Ok (), fs') →
  name ≠ EmptyString ∧ is_file fs name = false ∧
  fs' = FileSystem (dirs fs ∪ list_to_set (ancestors name)) (files fs)
                   (stat_log fs).
Proof.
  unfold makedirs. case_bool_decide; [done|].
  destruct (makedirs_fault env name); [done|].
  destruct (is_file fs name); [done|].
  destruct (existsb _ _); [done|]. by intros [= <-].
Qed.

Lemma open_append_ok env path fs f fs' :
  open_append env path fs = (Ok f, fs') →
  f = path ∧ is_dir fs path = false ∧ open_fault env path = None ∧
  fs' = match files fs !! path with
        | Some _ => fs
        | None => FileSystem (dirs fs) (<[path := EmptyString]> (files fs))
                             (stat_log fs)
        end.
Proof.
  unfold open_append. destruct (open_fault env path); [done|].
  destruct (is_dir fs path); [done|]. by intros [= <- <-].
Qed.

Lemma write_ok env f text fs fs' :
  write env f text fs = (Ok (), fs') →
  write_fault env f text = None ∧
  fs' = FileSystem (dirs fs) (alter (λ c, c +:+ text) f (files fs))
                   (stat_log fs).
Proof.
  unfold write. destruct (write_fault env f text) as [[e k]|]; [done|].
  by intros [= <-].
Qed.

Lemma update_daily_disk_csv_ok env path_to_check out_dir fs path fs' :
  update_daily_disk_csv env path_to_check out_dir fs = (Ok path, fs') →
  let p := default (home env) path_to_check in
  let od := default (path_join (home env) "disk_reports") out_dir in
  ∃ u row values,
    od ≠ EmptyString ∧
    disk_usage env p = Ok u ∧
    make_row env p u = Ok row ∧
    _dict_to_list fieldnames row = Ok values ∧
    path = target_of (home env) (today env) out_dir ∧
    is_dir fs path = false ∧
    files fs' = <[path := appended (files fs !! path) (csv_line values)]>
                  (files fs) ∧
    dirs fs' = dirs fs ∪ list_to_set (ancestors od) ∧
    stat_log fs' = p :: stat_log fs.
Proof.
  intros Hrun p od. unfold update_daily_disk_csv in Hrun.
  fold p od in Hrun. cbv zeta in Hrun.
  fold (target_of (home env) (today env) out_dir) in Hrun.
  set (target := target_of _ _ _) in *.
  apply io_bind_ok in Hrun as ([] & fs1 & Hmk & Hrun).
  apply makedirs_ok in Hmk as (Hod & _ & ->).
  apply io_bind_ok in Hrun as (u & fs2 & Hu & Hrun).
  unfold shutil_disk_usage in Hu. injection Hu as Hu <-. simpl in Hrun.
  apply io_bind_ok in Hrun as (row & fs3 & Hrow & Hrun).
  unfold lift in Hrow. injection Hrow as Hrow <-.
  apply io_bind_ok in Hrun as (present & fs4 & Hex & Hrun).
  unfold path_exists in Hex. injection Hex as <- <-.
  apply io_bind_ok in Hrun as (f & fs5 & Hopen & Hrun).
  apply open_append_ok in Hopen as (-> & Hdir & _ & ->).
  rewrite Hdir in Hrun. cbn [orb] in Hrun.
  apply io_bind_ok in Hrun as ([] & fs6 & Hhead & Hrun).
  apply io_bind_ok in Hrun as ([] & fs7 & Hwrite & Hrun).
  injection Hrun as <- <-.
  unfold writerow in Hwrite.
  apply io_bind_ok in Hwrite as (values & fs8 & Hvals & Hwrite).
  unfold lift in Hvals. injection Hvals as Hvals <-.
  apply write_ok in Hwrite as [_ ->].
  exists u, row, values.
  change (path_join od _) with target in *. clearbody target.
  cbn [files dirs stat_log] in *.
  assert (is_dir fs target = false) as Hdir'.
  { unfold is_dir in *. cbn [dirs] in Hdir.
    apply bool_decide_eq_false in Hdir. apply bool_decide_eq_false.
    set_solver. }
  unfold is_file in Hhead. cbn [files] in Hhead.
  destruct (files fs !! target) as [old|] eqn:Hold.
  - rewrite bool_decide_eq_true_2 in Hhead by eauto.
    injection Hhead as <-. cbn [files dirs stat_log appended].
    repeat split; try done.
    apply map_eq. intros k. destruct (decide (k = target)) as [->|Hne].
    + by rewrite lookup_alter_eq, lookup_insert_eq, Hold.
    + by rewrite lookup_alter_ne, lookup_insert_ne.
  - rewrite bool_decide_eq_false_2 in Hhead by (by intros [? ?]).
    cbn [negb] in Hhead. unfold writeheader in Hhead.
    apply write_ok in Hhead as [_ ->]. cbn [files dirs stat_log appended].
    repeat split; try done.
    apply map_eq. intros k. destruct (decide (k = target)) as [->|Hne].
    + by rewrite !lookup_alter_eq, !lookup_insert_eq.
    + by rewrite !lookup_alter_ne, !lookup_insert_ne.
Qed.

(** ** Decimal text *)

Lemma zpad_digits_2 (n : N) : (n < 100)%N → zpad 2 (str n) = digits 2 n.
Proof.
  intros Hn.
  assert (Forall (λ n, zpad 2 (str n) = digits 2 n) (N.of_nat <$> seq 0 100))
    as Hall.
  { refine (bool_decide_unpack _ _). vm_compute. exact I. }
  rewrite Forall_forall in Hall. apply Hall.
  by apply (N_lt_elem_of_seq n 100).
Qed.

Lemma zpad_digits_4 (n : N) : (n < 10000)%N → zpad 4 (str n) = digits 4 n.
Proof.
  intros Hn.
  assert (Forall (λ n, zpad 4 (str n) = digits 4 n) (N.of_nat <$> seq 0 (100 * 100)))
    as Hall.
  { refine (bool_decide_unpack _ _). vm_compute. exact I. }
  rewrite Forall_forall in Hall. apply Hall.
  apply (N_lt_elem_of_seq n (100 * 100)). lia.
Qed.

Lemma strftime_pattern (d : date) :
  valid_date d → strftime_Ymd d = pattern_Ymd d.
Proof.
  intros (Hy & Hm & Hd). unfold strftime_Ymd, pattern_Ymd.
  rewrite zpad_digits_4 by lia. by rewrite !zpad_digits_2 by lia.
Qed.

Lemma isoformat_pattern (t : datetime) :
  valid_datetime t → isoformat_seconds t = pattern_timestamp t.
Proof.
  intros ((Hy & Hm & Hd) & Hh & Hmi & Hs & _).
  unfold isoformat_seconds, pattern_timestamp.
  rewrite zpad_digits_4 by lia. by rewrite !zpad_digits_2 by lia.
Qed.

(** ** The row *)

Lemma make_row_fields env p u row :
  make_row env p u = Ok row →
  ∃ pct total_human used_human free_human,
    free_percent (total u) (free u) = Ok pct ∧
    _bytes_to_human (total u) = Ok total_human ∧
    _bytes_to_human (used u) = Ok used_human ∧
    _bytes_to_human (free u) = Ok free_human ∧
    _dict_to_list fieldnames row =
      Ok [ isoformat_seconds (now env); p; str (total u); str (used u);
           str (free u); format_2f pct; total_human; used_human;
           free_human ].
Proof.
  unfold make_row. destruct (free_percent _ _) as [pct|]; [|done].
  cbn [mbind result_bind mret result_ret].
  destruct (_bytes_to_human (total u)) as [th|]; [|done].
  destruct (_bytes_to_human (used u)) as [uh|]; [|done].
  destruct (_bytes_to_human (free u)) as [fh|]; [|done].
  cbn [mbind result_bind mret result_ret]. intros [= <-].
  exists pct, th, uh, fh. repeat split; try done.
Qed.

Lemma make_row_returns env p u :
  (total u < float_limit)%N → (used u < float_limit)%N →
  (free u < float_limit)%N →
  ∃ row, make_row env p u = Ok row.
Proof.
  intros Ht Hu Hf. unfold make_row.
  assert (∃ pct, free_percent (total u) (free u) = Ok pct) as [pct ->].
  { unfold free_percent, int_truediv.
    destruct (N.eqb_spec (total u) 0) as [|Hne]; [eauto|].
    destruct (float_of_int_below _ Hf) as [y Hy]. unfold float_of_int in Hy.
    assert (N2Q (free u) / N2Q (total u) <= N2Q (free u))%Q as Hle.
    { pose proof (N2Q_pos (total u) ltac:(lia)) as Hpos.
      pose proof (N2Q_nonneg (free u)) as Hnn.
      assert (1 <= N2Q (total u))%Q as H1.
      { change 1%Q with (N2Q 1). apply N2Q_le. lia. }
      apply Qle_shift_div_r; [done|]. nra. }
    pose proof (b64_round_mono _ _ Hle) as Hm.
    destruct (b64_round (N2Q (free u))) as [q|]; [|done].
    destruct (b64_round (N2Q (free u) / N2Q (total u))); [eauto|contradiction]. }
  cbn [mbind result_bind mret result_ret].
  assert (∀ n, (n < float_limit)%N → ∃ s, _bytes_to_human n = Ok s) as Hh.
  { intros n Hn. rewrite bytes_to_human_unit.
    destruct (float_of_int_below n Hn) as [q ->]. by eexists. }
  destruct (Hh _ Ht) as [? ->]. destruct (Hh _ Hu) as [? ->].
  destruct (Hh _ Hf) as [? ->]. by eexists.
Qed.

(** ** Paths *)

Lemma string_app_cons (c : ascii) (s t : string) :
  String c s +:+ t = String c (s +:+ t).
Proof. reflexivity. Qed.

Lemma string_app_nil_r (s : string) : s +:+ EmptyString = s.
Proof.
  induction s as [|c s IH]; [done|]. by rewrite string_app_cons, IH.
Qed.

Lemma string_app_assoc (a b c : string) : (a +:+ b) +:+ c = a +:+ b +:+ c.
Proof.
  induction a as [|x a IH]; [done|]. by rewrite !string_app_cons, IH.
Qed.

Lemma ancestors_from_last (pre rest : string) :
  pre +:+ rest ∈ ancestors_from pre rest.
Proof.
  revert pre. induction rest as [|c rest IH]; intros pre.
  - cbn. rewrite string_app_nil_r. set_solver.
  - cbn [ancestors_from]. apply elem_of_app. right.
    specialize (IH (pre +:+ String c EmptyString)).
    by rewrite string_app_assoc in IH.
Qed.

Lemma ancestors_self (p : string) : p ∈ ancestors p.
Proof. apply (ancestors_from_last EmptyString p). Qed.

Lemma starts_with_sep_app (a b : string) :
  a ≠ EmptyString → starts_with_sep (a +:+ b) = starts_with_sep a.
Proof. by destruct a. Qed.

Lemma path_join_relative (a b : string) :
  starts_with_sep b = false →
  path_join a b = a +:+ (if bool_decide (a = EmptyString) || ends_with_sep a
                         then EmptyString else "/") +:+ b.
Proof.
  intros Hb. unfold path_join. rewrite Hb.
  by destruct (bool_decide (a = EmptyString) || ends_with_sep a).
Qed.

Lemma target_of_spelling (h : string) (d : date) (out_dir : option string) :
  let od := default (path_join h "disk_reports") out_dir in
  od ≠ EmptyString →
  target_of h d out_dir =
    od +:+ (if ends_with_sep od then EmptyString else "/") +:+
    "disk_usage_" +:+ strftime_Ymd d +:+ ".csv".
Proof.
  intros od Hod. unfold target_of. fold od.
  rewrite path_join_relative by done.
  by rewrite bool_decide_eq_false_2 by done.
Qed.

(** C9: a call that returns has queried [path_to_check], or the home
    directory when it is omitted, and has written the file
    [disk_usage_<YYYYMMDD>.csv] of today's date in [out_dir], or in
    [<home>/disk_reports] when it is omitted. *)
Theorem defaults_and_target env path_to_check out_dir fs path fs' :
  valid_date (today env) →
  update_daily_disk_csv env path_to_check out_dir fs = (Ok path, fs') →
  let queried := match path_to_check with
                 | Some p => p
                 | None => home env
                 end in
  let od := match out_dir with
            | Some d => d
            | None => path_join (home env) "disk_reports"
            end in
  stat_log fs' = queried :: stat_log fs ∧
  is_dir fs' od = true ∧
  path = od +:+ (if ends_with_sep od then EmptyString else "/") +:+
         "disk_usage_" +:+ pattern_Ymd (today env) +:+ ".csv" ∧
  is_file fs' path = true ∧
  (out_dir = None → home env ≠ EmptyString → ends_with_sep (home env) = false →
   path = home env +:+ "/disk_reports/disk_usage_" +:+
          pattern_Ymd (today env) +:+ ".csv").
Proof.
  intros Hd Hrun queried od.
  apply update_daily_disk_csv_ok in Hrun
    as (u & row & values & Hod & _ & _ & _ & Hpath & _ & Hfiles & Hdirs & Hlog).
  assert (path = od +:+ (if ends_with_sep od then EmptyString else "/") +:+
                 "disk_usage_" +:+ pattern_Ymd (today env) +:+ ".csv") as Hsp.
  { rewrite Hpath, target_of_spelling by done. by rewrite strftime_pattern. }
  split; [by destruct path_to_check|]. split; [|split; [done|split]].
  - unfold is_dir. apply bool_decide_eq_true. rewrite Hdirs.
    apply elem_of_union_r, elem_of_list_to_set.
    destruct out_dir; apply ancestors_self.
  - unfold is_file. apply bool_decide_eq_true.
    rewrite Hfiles, lookup_insert_eq. eauto.
  - intros -> Hh Hsep. rewrite Hsp. unfold od.
    rewrite (path_join_relative (home env) "disk_reports") by reflexivity.
    rewrite Hsep, (bool_decide_eq_false_2 (home env = EmptyString)) by done.
    cbn [orb].
    assert (ends_with_sep (home env +:+ "/" +:+ "disk_reports") = false) as ->.
    { generalize (home env). intros h. induction h as [|c h IH]; [done|].
      rewrite string_app_cons. cbn [ends_with_sep].
      destruct (h +:+ "/" +:+ "disk_reports") eqn:E; [by destruct h|done]. }
    by rewrite !string_app_assoc.
Qed.

Lemma defaults_and_target_witness :
  valid_date (today example_env) ∧
  ∃ fs',
    update_daily_disk_csv example_env None None empty_fs =
      (Ok "/home/u/disk_reports/disk_usage_20240307.csv", fs') ∧
    stat_log fs' = ["/home/u"] ∧
    is_dir fs' "/home/u/disk_reports" = true ∧
    is_file fs' "/home/u/disk_reports/disk_usage_20240307.csv" = true.
Proof.
  assert (valid_date (today example_env)) as Hv.
  { repeat split; vm_compute; congruence. }
  split; [exact Hv|].
  destruct (update_daily_disk_csv example_env None None empty_fs)
    as [r fs'] eqn:Hrun.
  assert (r = Ok "/home/u/disk_reports/disk_usage_20240307.csv") as ->.
  { change r with (r, fs').1. rewrite <- Hrun. vm_compute. reflexivity. }
  exists fs'. split; [reflexivity|].
  destruct (defaults_and_target example_env None None empty_fs _ fs' Hv Hrun)
    as (Hlog & Hdir & _ & Hfile & _).
  split; [exact Hlog|]. split; [exact Hdir|exact Hfile].
Defined.

(** C7, as amended: the path returned is [out_dir] joined with the file
    name, as it was opened; it is absolute exactly when [out_dir] is. *)
Theorem returned_path_is_joined env path_to_check out_dir fs path fs' :
  update_daily_disk_csv env path_to_check out_dir fs = (Ok path, fs') →
  let od := default (path_join (home env) "disk_reports") out_dir in
  path = path_join od ("disk_usage_" +:+ strftime_Ymd (today env) +:+ ".csv") ∧
  isabs path = isabs od ∧
  is_file fs' path = true.
Proof.
  intros Hrun od.
  apply update_daily_disk_csv_ok in Hrun
    as (u & row & values & Hod & _ & _ & _ & Hpath & _ & Hfiles & _).
  fold od in Hod. split; [done|]. split.
  - rewrite Hpath, target_of_spelling by done. fold od. unfold isabs.
    by rewrite starts_with_sep_app.
  - unfold is_file. apply bool_decide_eq_true.
    rewrite Hfiles, lookup_insert_eq. eauto.
Qed.

Lemma returned_path_is_joined_witness :
  ∃ fs',
    update_daily_disk_csv example_env None (Some "reports") empty_fs =
      (Ok "reports/disk_usage_20240307.csv", fs') ∧
    isabs "reports/disk_usage_20240307.csv" = isabs "reports" ∧
    is_file fs' "reports/disk_usage_20240307.csv" = true.
Proof.
  destruct (update_daily_disk_csv example_env None (Some "reports") empty_fs)
    as [r fs'] eqn:Hrun.
  assert (r = Ok "reports/disk_usage_20240307.csv") as ->.
  { change r with (r, fs').1. rewrite <- Hrun. vm_compute. reflexivity. }
  exists fs'. split; [reflexivity|].
  destruct (returned_path_is_joined example_env None (Some "reports") empty_fs _ fs' Hrun)
    as (_ & Habs & Hfile).
  split; [exact Habs|exact Hfile].
Defined.

(** C7, as stated, fails: with the relative [out_dir] "reports" the call
    returns the relative path [reports/disk_usage_20240307.csv]. *)
Lemma relative_out_dir_returns_relative_path :
  (update_daily_disk_csv example_env None (Some "reports") empty_fs).1 =
    Ok "reports/disk_usage_20240307.csv" ∧
  isabs "reports/disk_usage_20240307.csv" = false.
Proof. split; by vm_compute. Qed.

(** C8: when the statistics of [path_to_check] cannot be obtained the call
    raises and no file is created or changed; if the directory step passed,
    the exception is the one of the query, which was made once. *)
Theorem stat_failure env path_to_check out_dir fs e :
  let p := default (home env) path_to_check in
  let od := default (path_join (home env) "disk_reports") out_dir in
  disk_usage env p = Raise e →
  (∃ e' fs',
     update_daily_disk_csv env path_to_check out_dir fs = (Raise e', fs') ∧
     files fs' = files fs) ∧
  (∀ fs1,
     makedirs env od fs = (Ok (), fs1) →
     update_daily_disk_csv env path_to_check out_dir fs =
       (Raise e, FileSystem (dirs fs1) (files fs) (p :: stat_log fs))).
Proof.
  intros p od He.
  assert (∀ fs1, makedirs env od fs = (Ok (), fs1) →
            update_daily_disk_csv env path_to_check out_dir fs =
              (Raise e, FileSystem (dirs fs1) (files fs) (p :: stat_log fs)))
    as Hpass.
  { intros fs1 Hmk. unfold update_daily_disk_csv. fold p od. cbv zeta.
    unfold mbind at 1, io_bind at 1. rewrite Hmk.
    unfold mbind at 1, io_bind at 1. unfold shutil_disk_usage. rewrite He.
    apply makedirs_ok in Hmk as (_ & _ & ->). done. }
  split; [|done].
  destruct (makedirs env od fs) as [[[]|e'] fs1] eqn:Hmk.
  - eexists _, _. split; [by apply Hpass|done].
  - exists e', fs1. split.
    + unfold update_daily_disk_csv. fold p od. cbv zeta.
      unfold mbind at 1, io_bind at 1. by rewrite Hmk.
    + unfold makedirs in Hmk.
      repeat (case_match; simplify_eq); done.
Qed.

Lemma stat_failure_witness :
  disk_usage example_env "/missing" = Raise (OSError "ENOENT") ∧
  (∃ e' fs',
     update_daily_disk_csv example_env (Some "/missing") None empty_fs =
       (Raise e', fs') ∧
     files fs' = files empty_fs).
Proof.
  assert (disk_usage example_env "/missing" = Raise (OSError "ENOENT")) as H.
  { reflexivity. }
  split; [exact H|].
  exact (proj1 (stat_failure example_env (Some "/missing") None empty_fs _ H)).
Defined.

(** ** How a data line begins *)

Lemma pretty_N_char_digit (d : N) : is_digit (pretty_N_char d) = true.
Proof. unfold pretty_N_char. by repeat case_match. Qed.

Lemma pretty_N_go_head (x : N) (s : string) :
  (0 < x)%N →
  ∃ c rest, pretty_N_go x s = String c rest ∧ is_digit c = true.
Proof.
  revert s. induction (N.lt_wf_0 x) as [x _ IH]. intros s Hx.
  rewrite pretty_N_go_step by done.
  destruct (decide (x `div` 10 = 0)%N) as [->|Hq].
  - rewrite pretty_N_go_0. eexists _, _. split; [done|].
    apply pretty_N_char_digit.
  - apply IH; [apply N.div_lt; lia|by apply N.neq_0_lt_0].
Qed.

Lemma str_head (n : N) :
  ∃ c rest, str n = String c rest ∧ is_digit c = true.
Proof.
  unfold str, pretty, pretty_N. case_decide as Hn.
  - by exists "0"%char, EmptyString.
  - apply pretty_N_go_head. lia.
Qed.

Lemma zeros_head (k : nat) (s : string) (c : ascii) (rest : string) :
  s = String c rest → is_digit c = true →
  ∃ c' rest',
    String.concat EmptyString (replicate k "0") +:+ s = String c' rest' ∧
    is_digit c' = true.
Proof.
  intros -> Hc. destruct k as [|k]; [by eexists _, _|].
  cbn [replicate String.concat].
  destruct (replicate k "0"); rewrite string_app_cons; by eexists _, _.
Qed.

Lemma isoformat_head (t : datetime) :
  ∃ c rest, isoformat_seconds t = String c rest ∧ is_digit c = true.
Proof.
  unfold isoformat_seconds, zpad.
  destruct (str_head (year (dt_date t))) as (c & rest & Hs & Hc).
  destruct (zeros_head (4 - String.length (str (year (dt_date t)))) _ c rest
              Hs Hc) as (c' & rest' & -> & Hc').
  rewrite string_app_cons. by eexists _, _.
Qed.

Lemma csv_line_head (f : string) (fs : list string) (c : ascii)
    (rest : string) :
  f = String c rest →
  first_char (csv_line (f :: fs)) = Some (if needs_quote f then dquote else c).
Proof.
  intros ->. unfold csv_line. rewrite fmap_cons. cbn [String.concat].
  generalize (csv_field <$> fs). intros l. unfold csv_field.
  destruct (needs_quote (String c rest)); destruct l;
    by rewrite ?string_app_cons.
Qed.

Lemma data_line_head (c : call) (line : string) :
  data_line c line →
  ∃ ch, first_char line = Some ch ∧ (is_digit ch = true ∨ ch = dquote).
Proof.
  intros (u & row & values & _ & Hrow & Hvals & ->).
  apply make_row_fields in Hrow as (pct & th & uh & fh & _ & _ & _ & _ & Hl).
  rewrite Hl in Hvals. injection Hvals as <-.
  destruct (isoformat_head (now c.1)) as (ch & rest & Hiso & Hd).
  rewrite (csv_line_head _ _ ch rest Hiso).
  destruct (needs_quote _); eauto.
Qed.

Lemma data_line_not_header (c : call) (line : string) :
  data_line c line → first_char line ≠ first_char (csv_line fieldnames).
Proof.
  intros (ch & -> & Hch)%data_line_head.
  change (first_char (csv_line fieldnames)) with (Some "t"%char).
  intros [= ->]. by destruct Hch.
Qed.

(** C10: when the day's file is already there, whatever it holds, a call
    that returns appends its row to it and writes no header; on an empty
    file the result is the row alone, which does not begin as the header
    does. *)
Theorem existing_file_gets_no_header env path_to_check out_dir fs path fs' old :
  update_daily_disk_csv env path_to_check out_dir fs = (Ok path, fs') →
  files fs !! path = Some old →
  ∃ line,
    data_line (env, path_to_check) line ∧
    files fs' !! path = Some (old +:+ line) ∧
    first_char line ≠ first_char (csv_line fieldnames).
Proof.
  intros Hrun Hold.
  apply update_daily_disk_csv_ok in Hrun
    as (u & row & values & _ & Hu & Hrow & Hvals & _ & _ & Hfiles & _).
  assert (data_line (env, path_to_check) (csv_line values)) as Hline.
  { by exists u, row, values. }
  exists (csv_line values). split; [done|]. split.
  - by rewrite Hfiles, lookup_insert_eq, Hold.
  - by apply (data_line_not_header (env, path_to_check)).
Qed.

Lemma existing_file_gets_no_header_witness :
  ∃ fs' line,
    update_daily_disk_csv example_env None None touched_fs =
      (Ok example_target, fs') ∧
    files touched_fs !! example_target = Some EmptyString ∧
    data_line (example_env, None) line ∧
    files fs' !! example_target = Some (EmptyString +:+ line) ∧
    first_char line ≠ first_char (csv_line fieldnames).
Proof.
  destruct (update_daily_disk_csv example_env None None touched_fs)
    as [r fs'] eqn:Hrun.
  assert (r = Ok example_target) as ->.
  { change r with (r, fs').1. rewrite <- Hrun. vm_compute. reflexivity. }
  assert (files touched_fs !! example_target = Some EmptyString) as Hold.
  { vm_compute. reflexivity. }
  destruct (existing_file_gets_no_header example_env None None touched_fs
              example_target fs' EmptyString Hrun Hold) as (line & H1 & H2 & H3).
  exists fs', line. split; [reflexivity|]. split; [exact Hold|].
  split; [exact H1|]. split; [exact H2|exact H3].
Defined.

(** On the example machine the empty file ends up holding the row and
    nothing else. *)
Example existing_empty_file_example :
  files (update_daily_disk_csv example_env None None touched_fs).2
    !! example_target =
  Some (csv_line [ "2024-03-07 09:05:03"; "/home/u"; "1073741824000";
                   "500000000000"; "573741824000"; "53.43"; "1000.00 GB";
                   "465.66 GB"; "534.34 GB" ]).
Proof. vm_compute. reflexivity. Qed.

(** ** The text of a row *)

Lemma chars_app (a b : string) : chars (a +:+ b) = chars a ++ chars b.
Proof.
  induction a as [|c a IH]; [done|].
  rewrite string_app_cons. unfold chars in *. cbn. by rewrite IH.
Qed.

Lemma needs_quote_app (a b : string) :
  needs_quote (a +:+ b) = needs_quote a || needs_quote b.
Proof. unfold needs_quote. by rewrite chars_app, existsb_app. Qed.

Lemma needs_quote_cons (c : ascii) (s : string) :
  needs_quote (String c s) = special c || needs_quote s.
Proof. done. Qed.

Lemma digit_not_special (c : ascii) : is_digit c = true → special c = false.
Proof.
  unfold is_digit. cbn. intros H.
  repeat (apply orb_prop in H as [H|H];
          [apply bool_decide_eq_true in H as ->; done|]).
  done.
Qed.

Lemma pretty_N_go_plain (x : N) (s : string) :
  needs_quote s = false → needs_quote (pretty_N_go x s) = false.
Proof.
  revert s. induction (N.lt_wf_0 x) as [x _ IH]. intros s Hs.
  destruct (decide (x = 0)%N) as [->|Hx]; [by rewrite pretty_N_go_0|].
  rewrite pretty_N_go_step by lia. apply IH; [apply N.div_lt; lia|].
  rewrite needs_quote_cons, Hs.
  by rewrite (digit_not_special _ (pretty_N_char_digit _)).
Qed.

Lemma str_plain (n : N) : needs_quote (str n) = false.
Proof.
  unfold str, pretty, pretty_N. case_decide; [done|].
  by apply pretty_N_go_plain.
Qed.

Lemma zeros_plain (k : nat) :
  needs_quote (String.concat EmptyString (replicate k "0")) = false.
Proof.
  induction k as [|k IH]; [done|]. cbn [replicate String.concat].
  destruct (replicate k "0") eqn:E; [done|].
  by rewrite !needs_quote_app, IH.
Qed.

Lemma zpad_plain (w : nat) (s : string) :
  needs_quote s = false → needs_quote (zpad w s) = false.
Proof. intros Hs. unfold zpad. by rewrite needs_quote_app, zeros_plain, Hs. Qed.

Lemma isoformat_plain (t : datetime) :
  needs_quote (isoformat_seconds t) = false.
Proof.
  unfold isoformat_seconds.
  by rewrite !needs_quote_app, !zpad_plain by apply str_plain.
Qed.

Lemma format_2f_plain (x : float) : needs_quote (format_2f x) = false.
Proof.
  destruct x as [q|]; [|done]. cbn [format_2f]. unfold show_hundredths.
  by rewrite !needs_quote_app, zpad_plain, str_plain by apply str_plain.
Qed.

Lemma bytes_to_human_plain (n : N) (s : string) :
  _bytes_to_human n = Ok s → needs_quote s = false.
Proof.
  rewrite bytes_to_human_unit. destruct (float_of_int n) as [x|]; [|done].
  cbn [mbind result_bind mret result_ret]. intros Heq.
  assert (s = format_2f (scale units x).1 +:+ " " +:+ (scale units x).2)
    as -> by (unfold mret, result_ret in Heq; congruence). clear Heq.
  rewrite !needs_quote_app, format_2f_plain, scale_unit.
  pose proof (scale_steps_le units x) as Hle. cbn [length units] in Hle.
  destruct (scale_steps units x) as [|[|[|[|[|[|[|?]]]]]]]; [done..|lia].
Qed.

Lemma csv_field_plain (s : string) : needs_quote s = false → csv_field s = s.
Proof. intros H. unfold csv_field. by rewrite H. Qed.

Lemma header_line_text : csv_line fieldnames = header_text.
Proof. reflexivity. Qed.

Lemma csv_line_row_text (t p a b c d e f g : string) :
  needs_quote t = false → needs_quote a = false → needs_quote b = false →
  needs_quote c = false → needs_quote d = false → needs_quote e = false →
  needs_quote f = false → needs_quote g = false →
  csv_line [t; p; a; b; c; d; e; f; g] =
    row_text t (if needs_quote p
                then String dquote (double_quotes p) +:+
                     String dquote EmptyString
                else p) a b c d e f g.
Proof.
  intros Ht Ha Hb Hc Hd He Hf Hg.
  unfold csv_line, row_text. cbn [fmap list_fmap String.concat].
  rewrite (csv_field_plain t Ht), (csv_field_plain a Ha),
    (csv_field_plain b Hb), (csv_field_plain c Hc), (csv_field_plain d Hd),
    (csv_field_plain e He), (csv_field_plain f Hf), (csv_field_plain g Hg).
  unfold csv_field. change lineterminator with CRLF.
  by rewrite !string_app_assoc.
Qed.

Lemma make_row_text env p u row :
  make_row env p u = Ok row →
  ∃ pct total_human used_human free_human,
    free_percent (total u) (free u) = Ok pct ∧
    _bytes_to_human (total u) = Ok total_human ∧
    _bytes_to_human (used u) = Ok used_human ∧
    _bytes_to_human (free u) = Ok free_human ∧
    ∀ values,
      _dict_to_list fieldnames row = Ok values →
      csv_line values =
        row_text (isoformat_seconds (now env))
                 (if needs_quote p
                  then String dquote (double_quotes p) +:+
                       String dquote EmptyString
                  else p)
                 (str (total u)) (str (used u)) (str (free u))
                 (format_2f pct) total_human used_human free_human.
Proof.
  intros Hrow.
  apply make_row_fields in Hrow as (pct & th & uh & fh & Hp & Ht & Hus & Hf & Hl).
  exists pct, th, uh, fh. repeat split; try done.
  intros values Hvals. rewrite Hl in Hvals. injection Hvals as <-.
  apply csv_line_row_text;
    eauto using isoformat_plain, str_plain, format_2f_plain,
      bytes_to_human_plain.
Qed.

Lemma data_line_row_of (c : call) (line : string) :
  data_line c line → row_of c line.
Proof.
  intros (u & row & values & Hu & Hrow & Hvals & ->).
  apply make_row_text in Hrow as (pct & th & uh & fh & Hp & Ht & Hus & Hf & Hl).
  exists u, pct, th, uh, fh. repeat split; try done. by apply Hl.
Qed.

(** C2: a call that returns has appended one row to the day's file, after
    the header line if the file is new: the nine field texts with commas
    between them and CR LF at the end, in the order timestamp, path,
    total_bytes, used_bytes, free_bytes, free_percent, total_human,
    used_human, free_human, which is the order of the names in the header
    line.  The timestamp is the local time as [YYYY-MM-DD HH:MM:SS]. *)
Theorem row_field_order env path_to_check out_dir fs path fs' :
  valid_datetime (now env) →
  update_daily_disk_csv env path_to_check out_dir fs = (Ok path, fs') →
  let p := default (home env) path_to_check in
  ∃ u pct total_human used_human free_human,
    disk_usage env p = Ok u ∧
    free_percent (total u) (free u) = Ok pct ∧
    _bytes_to_human (total u) = Ok total_human ∧
    _bytes_to_human (used u) = Ok used_human ∧
    _bytes_to_human (free u) = Ok free_human ∧
    files fs' !! path =
      Some (match files fs !! path with
            | Some old => old
            | None => header_text
            end +:+
            row_text (pattern_timestamp (now env))
                     (if needs_quote p
                      then String dquote (double_quotes p) +:+
                           String dquote EmptyString
                      else p)
                     (str (total u)) (str (used u)) (str (free u))
                     (format_2f pct) total_human used_human free_human).
Proof.
  intros Hnow Hrun p.
  apply update_daily_disk_csv_ok in Hrun
    as (u & row & values & _ & Hu & Hrow & Hvals & _ & _ & Hfiles & _).
  fold p in Hu, Hrow.
  apply make_row_text in Hrow as (pct & th & uh & fh & Hp & Ht & Hus & Hf & Hl).
  exists u, pct, th, uh, fh. repeat split; try done.
  rewrite Hfiles, lookup_insert_eq, (Hl _ Hvals), (isoformat_pattern _ Hnow).
  by destruct (files fs !! path).
Qed.

Lemma row_field_order_witness :
  valid_datetime (now example_env) ∧
  ∃ fs',
    update_daily_disk_csv example_env None None empty_fs =
      (Ok example_target, fs') ∧
    files fs' !! example_target =
      Some ("timestamp,path,total_bytes,used_bytes,free_bytes,free_percent," +:+
            "total_human,used_human,free_human" +:+ CRLF +:+
            "2024-03-07 09:05:03,/home/u,1073741824000,500000000000," +:+
            "573741824000,53.43,1000.00 GB,465.66 GB,534.34 GB" +:+ CRLF).
Proof.
  assert (valid_datetime (now example_env)) as Hv.
  { repeat split; vm_compute; congruence. }
  split; [exact Hv|].
  destruct (update_daily_disk_csv example_env None None empty_fs)
    as [r fs'] eqn:Hrun.
  assert (r = Ok example_target) as ->.
  { change r with (r, fs').1. rewrite <- Hrun. vm_compute. reflexivity. }
  exists fs'. split; [reflexivity|].
  destruct (row_field_order example_env None None empty_fs _ fs' Hv Hrun)
    as (u & pct & th & uh & fh & Hu & Hp & Ht & Hus & Hf & Hfile).
  rewrite Hfile. vm_compute in Hu. injection Hu as <-.
  vm_compute in Hp, Ht, Hus, Hf.
  injection Hp as <-. injection Ht as <-. injection Hus as <-.
  injection Hf as <-. vm_compute. reflexivity.
Defined.

(** ** Several calls on one day *)

Lemma appended_app (old : option string) (a b : string) :
  appended old (a +:+ b) = appended old a +:+ b.
Proof. destruct old; cbn [appended]; by rewrite string_app_assoc. Qed.

Lemma record_all_spec (out_dir : option string) (h : string) (d : date)
    (calls : list call) :
  ∀ fs paths fs',
    Forall (λ c : call, home c.1 = h ∧ today c.1 = d) calls →
    record_all out_dir calls fs = (Ok paths, fs') →
    ∃ lines,
      Forall2 data_line calls lines ∧
      paths = replicate (length calls) (target_of h d out_dir) ∧
      files fs' !! target_of h d out_dir =
        match calls with
        | [] => files fs !! target_of h d out_dir
        | _ => Some (appended (files fs !! target_of h d out_dir)
                              (text_of lines))
        end.
Proof.
  induction calls as [|c rest IH]; intros fs paths fs' Hsame Hrun.
  - injection Hrun as <- <-. exists []. by repeat split.
  - apply Forall_cons in Hsame as [[Hh Hd] Hsame].
    cbn [record_all] in Hrun.
    apply io_bind_ok in Hrun as (p & fs1 & Hcall & Hrun).
    apply io_bind_ok in Hrun as (ps & fs2 & Hrest & Hrun).
    injection Hrun as <- <-.
    apply update_daily_disk_csv_ok in Hcall
      as (u & row & values & _ & Hu & Hrow & Hvals & Hp & _ & Hfiles & _).
    rewrite Hh, Hd in Hp. subst p.
    destruct (IH fs1 ps fs2 Hsame Hrest) as (lines & Hlines & Hps & Hcontent).
    exists (csv_line values :: lines). split; [|split].
    + apply Forall2_cons. split; [by exists u, row, values|done].
    + by rewrite Hps.
    + rewrite Hcontent, Hfiles, lookup_insert_eq.
      destruct rest as [|c' rest].
      * apply Forall2_nil_inv_l in Hlines as ->.
        cbn [text_of foldr]. by rewrite string_app_nil_r.
      * cbn [text_of foldr appended]. by rewrite appended_app.
Qed.

(** C1, as amended: the calls of one date with one [out_dir], all returning,
    each return the path of the same file and leave it holding what it held
    before, or the header line if it was not there, followed by one row per
    call, in the order of the calls and with nothing in between; no row
    begins as the header line does.  So the header line is written once, as
    the first line, when the first call of the day creates the file, and not
    at all when the file is already there. *)
Theorem same_day_calls (out_dir : option string) (h : string) (d : date)
    (calls : list call) (fs : filesystem) (paths : list string)
    (fs' : filesystem) :
  Forall (λ c : call, home c.1 = h ∧ today c.1 = d) calls →
  record_all out_dir calls fs = (Ok paths, fs') →
  let target := target_of h d out_dir in
  ∃ lines,
    length lines = length calls ∧
    Forall2 row_of calls lines ∧
    Forall (λ l, first_char l ≠ Some "t"%char) lines ∧
    paths = replicate (length calls) target ∧
    files fs' !! target =
      match calls, files fs !! target with
      | [], before => before
      | _ :: _, None => Some (header_text +:+ text_of lines)
      | _ :: _, Some old => Some (old +:+ text_of lines)
      end.
Proof.
  intros Hsame Hrun target.
  destruct (record_all_spec out_dir h d calls fs paths fs' Hsame Hrun)
    as (lines & Hlines & Hps & Hcontent).
  exists lines. split; [symmetry; by eapply Forall2_length|].
  split; [|split; [|split; [done|]]].
  - eapply Forall2_impl; [exact Hlines|]. apply data_line_row_of.
  - clear -Hlines. induction Hlines as [|c l cs ls Hl _ IH]; [done|].
    apply Forall_cons. split; [|done].
    exact (data_line_not_header c l Hl).
  - fold target in Hcontent. rewrite Hcontent. destruct calls; [done|].
    by destruct (files fs !! target).
Qed.

Lemma same_day_calls_witness :
  ∃ fs' lines,
    record_all None [(example_env, None); (example_env_later, None)] empty_fs =
      (Ok [example_target; example_target], fs') ∧
    length lines = 2%nat ∧
    Forall2 row_of [(example_env, None); (example_env_later, None)] lines ∧
    files fs' !! example_target = Some (header_text +:+ text_of lines).
Proof.
  pose (calls := [(example_env, None); (example_env_later, None)] : list call).
  destruct (record_all None calls empty_fs) as [r fs'] eqn:Hrun.
  assert (r = Ok [example_target; example_target]) as ->.
  { change r with (r, fs').1. rewrite <- Hrun. vm_compute. reflexivity. }
  assert (Forall (λ c : call, home c.1 = "/home/u" ∧ today c.1 = Date 2024 3 7)
                 calls) as Hsame.
  { repeat constructor. }
  destruct (same_day_calls None "/home/u" (Date 2024 3 7) calls empty_fs _ fs'
              Hsame Hrun) as (lines & Hlen & Hrows & _ & _ & Hcontent).
  exists fs', lines. split; [exact Hrun|]. split; [exact Hlen|].
  split; [exact Hrows|]. exact Hcontent.
Defined.

(** C1, as stated, fails: when the day's file is already there, empty, two
    calls leave their two rows in it and no header line. *)
Lemma existing_file_stays_without_header :
  files touched_fs !! example_target = Some EmptyString ∧
  ∃ fs',
    record_all None [(example_env, None); (example_env_later, None)]
               touched_fs =
      (Ok [example_target; example_target], fs') ∧
    files fs' !! example_target =
      Some ("2024-03-07 09:05:03,/home/u,1073741824000,500000000000," +:+
            "573741824000,53.43,1000.00 GB,465.66 GB,534.34 GB" +:+ CRLF +:+
            "2024-03-07 09:05:08,/home/u,1073741824000,500000001024," +:+
            "573741822976,53.43,1000.00 GB,465.66 GB,534.34 GB" +:+ CRLF) ∧
    ∀ rest, files fs' !! example_target ≠ Some (header_text +:+ rest).
Proof.
  split; [reflexivity|].
  exists (record_all None [(example_env, None); (example_env_later, None)]
                     touched_fs).2.
  split; [vm_compute; reflexivity|].
  assert (files (record_all None
                   [(example_env, None); (example_env_later, None)]
                   touched_fs).2 !! example_target =
          Some ("2024-03-07 09:05:03,/home/u,1073741824000,500000000000," +:+
                "573741824000,53.43,1000.00 GB,465.66 GB,534.34 GB" +:+
                CRLF +:+
                "2024-03-07 09:05:08,/home/u,1073741824000,500000001024," +:+
                "573741822976,53.43,1000.00 GB,465.66 GB,534.34 GB" +:+
                CRLF)) as -> by (vm_compute; reflexivity).
  split; [reflexivity|]. intros rest. discriminate.
Qed.

(** On the example machine two calls leave the header and two rows. *)
Example two_calls_example :
  files (record_all None [(example_env, None); (example_env_later, None)]
                    empty_fs).2 !! example_target =
  Some (csv_line fieldnames +:+
        csv_line [ "2024-03-07 09:05:03"; "/home/u"; "1073741824000";
                   "500000000000"; "573741824000"; "53.43"; "1000.00 GB";
                   "465.66 GB"; "534.34 GB" ] +:+
        csv_line [ "2024-03-07 09:05:08"; "/home/u"; "1073741824000";
                   "500000001024"; "573741822976"; "53.43"; "1000.00 GB";
                   "465.66 GB"; "534.34 GB" ]).
Proof. vm_compute. reflexivity. Qed.

(** ** When a call returns *)

(** A call returns when the output directory can be made, the statistics
    are reported with counts that fit a float, and the day's file can be
    opened and written to. *)
Lemma update_daily_disk_csv_returns env path_to_check out_dir fs u :
  let p := default (home env) path_to_check in
  let od := default (path_join (home env) "disk_reports") out_dir in
  let target := target_of (home env) (today env) out_dir in
  od ≠ EmptyString →
  makedirs_fault env od = None →
  existsb (is_file fs) (ancestors od) = false →
  disk_usage env p = Ok u →
  (total u < float_limit)%N → (used u < float_limit)%N →
  (free u < float_limit)%N →
  is_dir fs target = false → target ∉ ancestors od →
  open_fault env target = None →
  (∀ text, write_fault env target text = None) →
  ∃ fs', update_daily_disk_csv env path_to_check out_dir fs = (Ok target, fs').
Proof.
  intros p od target Hod Hmk Hanc Hu Ht Hus Hf Hdir Hnot Hopen Hwr.
  destruct (make_row_returns env p u Ht Hus Hf) as [row Hrow].
  pose proof Hrow as Hrow'.
  apply make_row_fields in Hrow' as (? & ? & ? & ? & _ & _ & _ & _ & Hvals).
  assert (is_file fs od = false) as Hfile.
  { destruct (is_file fs od) eqn:E; [|done].
    assert (existsb (is_file fs) (ancestors od) = true) as Hex; [|congruence].
    apply existsb_exists. exists od. split; [|done].
    apply list_elem_of_In, ancestors_self. }
  set (fs1 := FileSystem (dirs fs ∪ list_to_set (ancestors od)) (files fs)
                         (stat_log fs)).
  set (fs2 := FileSystem (dirs fs1) (files fs1) (p :: stat_log fs1)).
  assert (makedirs env od fs = (Ok (), fs1)) as H1.
  { unfold makedirs. by rewrite bool_decide_eq_false_2, Hmk, Hfile, Hanc. }
  assert (shutil_disk_usage env p fs1 = (Ok u, fs2)) as H2.
  { unfold shutil_disk_usage. by rewrite Hu. }
  assert (is_dir fs2 target = false) as Hdir2.
  { unfold is_dir in *. cbn [dirs fs2 fs1].
    apply bool_decide_eq_false in Hdir. apply bool_decide_eq_false.
    rewrite not_elem_of_union, elem_of_list_to_set. by split. }
  assert (∃ fs3, open_append env target fs2 = (Ok target, fs3) ∧
                 is_Some (files fs3 !! target) ∧
                 (is_file fs2 target = false →
                  files fs3 !! target = Some EmptyString)) as (fs3 & H3 & _).
  { unfold open_append. rewrite Hopen, Hdir2.
    eexists. split; [done|]. unfold is_file.
    destruct (files fs2 !! target) eqn:E.
    - rewrite E. split; [eauto|]. intros Hc.
      apply bool_decide_eq_false in Hc. destruct Hc. eauto.
    - cbn [files]. rewrite lookup_insert_eq. eauto. }
  assert (∀ fs4, ∃ fs5, writerow env target fieldnames row fs4 = (Ok (), fs5))
    as H5.
  { intros fs4. unfold writerow, lift, mbind, io_bind.
    rewrite Hvals. cbv beta iota. unfold write. rewrite Hwr. by eexists. }
  assert (∃ fs4, (if negb (is_dir fs2 target || is_file fs2 target)
                  then writeheader env target fieldnames else mret ()) fs3
                 = (Ok (), fs4)) as [fs4 H4].
  { destruct (negb _); [|by eexists].
    unfold writeheader, write. rewrite Hwr. by eexists. }
  destruct (H5 fs4) as [fs5 H5'].
  exists fs5. unfold update_daily_disk_csv. fold p od. cbv zeta.
  fold (target_of (home env) (today env) out_dir). fold target.
  rewrite (io_bind_run _ _ _ _ _ H1), (io_bind_run _ _ _ _ _ H2).
  rewrite (io_bind_run (lift (make_row env p u)) _ fs2 row fs2)
    by (unfold lift; by rewrite Hrow).
  rewrite (io_bind_run (path_exists target) _ fs2 _ fs2 eq_refl).
  rewrite (io_bind_run _ _ _ _ _ H3), (io_bind_run _ _ _ _ _ H4).
  by rewrite (io_bind_run _ _ _ _ _ H5').
Qed.

(** * Further properties *)

(** ** The units of [_bytes_to_human] *)

Lemma unit_steps_between (n lo hi : N) (k : nat) (x xlo xhi : float) :
  (lo <= n <= hi)%N →
  float_of_int lo = Ok xlo → float_of_int hi = Ok xhi →
  float_of_int n = Ok x →
  scale_steps units xlo = k → scale_steps units xhi = k →
  scale_steps units x = k.
Proof.
  intros [Hlo Hhi] Elo Ehi Ex Hklo Hkhi.
  pose proof (scale_steps_mono units _ _ (float_of_int_mono lo n _ _ Hlo Elo Ex)).
  pose proof (scale_steps_mono units _ _ (float_of_int_mono n hi _ _ Hhi Ex Ehi)).
  lia.
Qed.

Lemma unit_steps_range (lo hi : N) (k : nat) :
  (match float_of_int lo, float_of_int hi with
   | Ok xlo, Ok xhi =>
       bool_decide (scale_steps units xlo = k ∧ scale_steps units xhi = k)
   | _, _ => false
   end) = true →
  ∀ n x, (lo <= n <= hi)%N → float_of_int n = Ok x → scale_steps units x = k.
Proof.
  intros Hc n x Hn Ex.
  destruct (float_of_int lo) as [xlo|] eqn:Elo; [|done].
  destruct (float_of_int hi) as [xhi|] eqn:Ehi; [|done].
  apply bool_decide_eq_true in Hc as [Hklo Hkhi].
  by apply (unit_steps_between n lo hi k x xlo xhi).
Qed.

Lemma scale_steps_thresholds (n : N) (x : float) :
  (n < float_limit)%N → float_of_int n = Ok x →
  scale_steps units x = thresholds_passed n.
Proof.
  intros Hn Ex.
  assert (∀ lo hi k,
            (match float_of_int lo, float_of_int hi with
             | Ok xlo, Ok xhi =>
                 bool_decide (scale_steps units xlo = k ∧
                              scale_steps units xhi = k)
             | _, _ => false
             end) = true →
            (lo <= n <= hi)%N → scale_steps units x = k) as Hrange.
  { intros lo hi k Hc Hb. by apply (unit_steps_range lo hi k Hc n). }
  unfold thresholds_passed, unit_thresholds.
  destruct (decide (n < 1024)%N).
  { rewrite (Hrange 0%N 1023%N 0%nat
               ltac:(vm_compute; reflexivity) ltac:(lia)).
    symmetry. repeat (rewrite filter_cons_False by lia). done. }
  destruct (decide (n < 1024 ^ 2)%N).
  { rewrite (Hrange 1024%N (1024 ^ 2 - 1)%N 1%nat
               ltac:(vm_compute; reflexivity) ltac:(lia)).
    symmetry. rewrite filter_cons_True by lia.
    repeat (rewrite filter_cons_False by lia). done. }
  destruct (decide (n < 1024 ^ 3)%N).
  { rewrite (Hrange (1024 ^ 2)%N (1024 ^ 3 - 1)%N 2%nat
               ltac:(vm_compute; reflexivity) ltac:(lia)).
    symmetry. rewrite !filter_cons_True by lia.
    repeat (rewrite filter_cons_False by lia). done. }
  destruct (decide (n < 1024 ^ 4)%N).
  { rewrite (Hrange (1024 ^ 3)%N (1024 ^ 4 - 1)%N 3%nat
               ltac:(vm_compute; reflexivity) ltac:(lia)).
    symmetry. rewrite !filter_cons_True by lia.
    repeat (rewrite filter_cons_False by lia). done. }
  destruct (decide (n < 1024 ^ 5)%N).
  { rewrite (Hrange (1024 ^ 4)%N (1024 ^ 5 - 1)%N 4%nat
               ltac:(vm_compute; reflexivity) ltac:(lia)).
    symmetry. rewrite !filter_cons_True by lia.
    repeat (rewrite filter_cons_False by lia). done. }
  destruct (decide (n < 2 ^ 60 - 64)%N).
  { rewrite (Hrange (1024 ^ 5)%N (2 ^ 60 - 65)%N 5%nat
               ltac:(vm_compute; reflexivity) ltac:(lia)).
    symmetry. rewrite !filter_cons_True by lia.
    repeat (rewrite filter_cons_False by lia). done. }
  rewrite (Hrange (2 ^ 60 - 64)%N (float_limit - 1)%N 6%nat
               ltac:(vm_compute; reflexivity) ltac:(lia)).
  symmetry. rewrite !filter_cons_True by lia. done.
Qed.

(** X1: which unit is chosen.  For every count that [float] accepts the unit
    is the one at the position that counts the thresholds 1024, 1024^2, ...,
    1024^5 and 2^60 - 64 that the count has reached. *)
Theorem unit_by_thresholds (n : N) :
  (n < float_limit)%N →
  unit_of n = Ok (nth (thresholds_passed n) (units ++ ["EB"]) "EB").
Proof.
  intros Hn. unfold unit_of.
  destruct (float_of_int_below n Hn) as [q Eq]. rewrite Eq.
  cbn [mbind result_bind mret result_ret]. f_equal. rewrite scale_unit. f_equal.
  by apply scale_steps_thresholds.
Qed.

Lemma unit_by_thresholds_witness :
  (1048575 < float_limit)%N ∧
  unit_of 1048575 = Ok (nth (thresholds_passed 1048575) (units ++ ["EB"]) "EB").
Proof.
  assert (1048575 < float_limit)%N as H by (vm_compute; reflexivity).
  split; [exact H|]. exact (unit_by_thresholds 1048575 H).
Defined.

(** X2: [_bytes_to_human] raises [OverflowError] exactly for the counts from
    [2^1024 - 2^970] on, which [float] cannot take, and it returns a text
    exactly for the counts below; it raises nothing else. *)
Theorem bytes_to_human_raises_iff (n : N) :
  (_bytes_to_human n = Raise OverflowError ↔ (float_limit <= n)%N) ∧
  ((∃ s, _bytes_to_human n = Ok s) ↔ (n < float_limit)%N).
Proof.
  rewrite bytes_to_human_unit.
  destruct (decide (n < float_limit)%N) as [Hn|Hn].
  - destruct (float_of_int_below n Hn) as [q ->].
    cbn [mbind result_bind mret result_ret].
    split; split.
    + done.
    + intros. lia.
    + by intros _.
    + intros _. by eexists.
  - rewrite (float_of_int_above n) by lia.
    cbn [mbind result_bind]. split; split.
    + intros _. lia.
    + done.
    + by intros [s Hs].
    + intros. lia.
Qed.

(** ** The number that is displayed *)

Lemma b64_round_finite_lt (x y : Q) : b64_round x = Finite y → (y < 2 ^ 1024)%Q.
Proof.
  unfold b64_round. destruct (Qle_bool x 0).
  - intros [= <-]. apply pow2_pos.
  - destruct (Qle_bool (2 ^ 1024) (round_to_ulp x)) eqn:E; [done|].
    intros [= <-]. by apply Qle_bool_false.
Qed.

Lemma fdiv_1024 (a : Q) :
  (1024 <= a)%Q → (a < 2 ^ 1024)%Q →
  ∃ b, fdiv (Finite a) 1024 = Finite b ∧ (1 <= b)%Q ∧ (b < 2 ^ 1024)%Q.
Proof.
  intros Ha Hlt. cbn [fdiv].
  assert (1 <= a / 1024)%Q as H1 by (apply Qle_shift_div_l; lra).
  assert (a / 1024 <= 2 ^ 1014)%Q as H2.
  { apply Qle_shift_div_r; [lra|].
    assert (2 ^ 1024 == 2 ^ 1014 * 1024)%Q as Hp by (by vm_compute). lra. }
  destruct (b64_round (2 ^ 1014)) as [y|] eqn:Hfin;
    [|vm_compute in Hfin; discriminate].
  pose proof (b64_round_mono _ _ H2) as Hm. rewrite Hfin in Hm.
  destruct (b64_round (a / 1024)) as [b|] eqn:Eb; [|contradiction].
  exists b. split; [done|]. split; [|by eapply b64_round_finite_lt].
  destruct b64_round_1 as (y1 & E1 & Hy1).
  pose proof (b64_round_mono _ _ H1) as Hm1. rewrite E1, Eb in Hm1.
  cbn [fle] in Hm1. lra.
Qed.

Lemma scale_value_bounds (l : list string) (a : Q) :
  (0 <= a)%Q → (a < 2 ^ 1024)%Q →
  ∃ b, (scale l (Finite a)).1 = Finite b ∧ (0 <= b)%Q ∧
       ((scale_steps l (Finite a) < length l)%nat → (b < 1024)%Q) ∧
       ((0 < scale_steps l (Finite a))%nat → (1 <= b)%Q).
Proof.
  revert a. induction l as [|u l IH]; intros a Ha Hlt.
  - exists a. cbn. repeat split; [done|lia|lia].
  - cbn [scale scale_steps]. destruct (flt (Finite a) 1024) eqn:Ef.
    + exists a. cbn [fst]. repeat split; [done| |lia].
      intros _. cbn [flt] in Ef. apply negb_true_iff in Ef.
      by apply Qle_bool_false.
    + cbn [flt] in Ef. apply negb_false_iff, Qle_bool_iff in Ef.
      destruct (fdiv_1024 a Ef Hlt) as (b & -> & Hb1 & Hblt).
      destruct (IH b ltac:(lra) Hblt) as (c & Hc & Hc0 & Hclt & Hc1).
      exists c. repeat split; [done|done| |].
      * cbn [length]. intros Hs. apply Hclt. lia.
      * intros _. destruct (scale_steps l (Finite b)) eqn:Es; [|apply Hc1; lia].
        destruct l as [|u' l']; [by injection Hc as <-|].
        cbn [scale scale_steps] in Hc, Es.
        destruct (flt (Finite b) 1024); [by injection Hc as <-|done].
Qed.

(** X3: the number in front of the unit.  For every count that [float]
    accepts the text is a number of hundredths and a unit; unless the unit is
    EB the number is at most 1024.00 (which rounding can reach), and unless
    the unit is B it is at least 1.00. *)
Theorem bytes_to_human_number_bounds (n : N) :
  (n < float_limit)%N →
  ∃ c u,
    _bytes_to_human n = Ok (show_hundredths c +:+ " " +:+ u) ∧
    unit_of n = Ok u ∧
    0 <= c ∧
    (u ≠ "EB" → c <= 102400) ∧
    (u ≠ "B" → 100 <= c).
Proof.
  intros Hn. rewrite bytes_to_human_unit. unfold unit_of.
  destruct (float_of_int_below n Hn) as [a Ea]. rewrite Ea.
  cbn [mbind result_bind mret result_ret].
  assert (0 <= a ∧ a < 2 ^ 1024)%Q as [Ha0 Halt].
  { unfold float_of_int in Ea.
    destruct (b64_round (N2Q n)) as [a'|] eqn:Eb; [|done]. injection Ea as ->.
    split; [|by eapply b64_round_finite_lt].
    by eapply b64_round_nonneg; [apply N2Q_nonneg|]. }
  destruct (scale_value_bounds units a Ha0 Halt) as (b & Hb & Hb0 & Hblt & Hb1).
  rewrite Hb. exists (hundredths b), (scale units (Finite a)).2.
  split; [done|]. split; [done|].
  pose proof (scale_steps_le units (Finite a)) as Hle.
  rewrite scale_unit. split; [|split].
  - pose proof (hundredths_mono 0 b Hb0). by assert (hundredths 0 = 0) as <-.
  - intros Hu.
    assert (scale_steps units (Finite a) < length units)%nat as Hs.
    { destruct (decide (scale_steps units (Finite a) = 6%nat)) as [E|];
        [by rewrite E in Hu|]. cbn [length units] in *. lia. }
    pose proof (hundredths_mono b 1024 ltac:(specialize (Hblt Hs); lra)).
    by assert (hundredths 1024 = 102400) as <-.
  - intros Hu.
    assert (0 < scale_steps units (Finite a))%nat as Hs.
    { destruct (scale_steps units (Finite a)); [done|lia]. }
    pose proof (hundredths_mono 1 b (Hb1 Hs)).
    by assert (hundredths 1 = 100) as <-.
Qed.

Lemma bytes_to_human_number_bounds_witness :
  (1048575 < float_limit)%N ∧
  _bytes_to_human 1048575 = Ok "1024.00 KB" ∧
  ∃ c u,
    _bytes_to_human 1048575 = Ok (show_hundredths c +:+ " " +:+ u) ∧
    unit_of 1048575 = Ok u ∧ 0 <= c ∧
    (u ≠ "EB" → c <= 102400) ∧ (u ≠ "B" → 100 <= c).
Proof.
  assert (1048575 < float_limit)%N as H by (vm_compute; reflexivity).
  split; [exact H|]. split; [vm_compute; reflexivity|].
  exact (bytes_to_human_number_bounds 1048575 H).
Defined.

(** ** Counts that are floats *)

Lemma pow2_nonzero (k : Z) : ¬ (2 ^ k == 0)%Q.
Proof. pose proof (pow2_pos k). lra. Qed.

(** A value [m * 2^e] with [m < 2^53] is a float: rounding returns it. *)
Lemma b64_round_exact (m e : Z) :
  0 <= m < 2 ^ 53 → -1074 <= e <= 900 →
  ∃ y, b64_round (inject_Z m * 2 ^ e) = Finite y ∧
       (y == inject_Z m * 2 ^ e)%Q.
Proof.
  intros [Hm0 Hm] He. pose proof (pow2_pos e) as Hpe.
  destruct (decide (m = 0)) as [->|Hne].
  { exists 0%Q. split; [|ring]. apply b64_round_nonpos.
    change (inject_Z 0) with 0%Q. lra. }
  set (x := (inject_Z m * 2 ^ e)%Q).
  assert (0 < x)%Q as Hx.
  { unfold x. apply Qmult_lt_0_compat; [|done].
    change 0%Q with (inject_Z 0). rewrite <- Zlt_Qlt. lia. }
  assert (x < 2 ^ (e + 53))%Q as Hlt.
  { assert (inject_Z m < 2 ^ 53)%Q as Hm'.
    { assert (inject_Z (2 ^ 53) == 2 ^ 53)%Q as <- by (by apply pow2_inject).
      by rewrite <- Zlt_Qlt. }
    unfold x. rewrite pow2_add, (Qmult_comm (2 ^ e)).
    by apply Qmult_lt_r. }
  pose proof (ulp_exp_le x e Hx Hlt ltac:(lia)) as Hue.
  pose proof (ulp_exp_ge x) as Hug.
  assert (x / 2 ^ ulp_exp x == inject_Z (m * 2 ^ (e - ulp_exp x)))%Q as Hint.
  { unfold x in *. rewrite inject_Z_mult, pow2_inject by lia.
    rewrite <- div_pow2. field. apply pow2_nonzero. }
  assert (round_to_ulp x == x)%Q as Hr.
  { unfold round_to_ulp. cbv zeta. rewrite Hint, round_half_even_Z.
    rewrite <- Hint. field. apply pow2_nonzero. }
  rewrite b64_round_pos by done.
  assert (round_to_ulp x < 2 ^ 1024)%Q as Hfin.
  { rewrite Hr. pose proof (pow2_le (e + 53) 1024 ltac:(lia)). lra. }
  apply Qle_bool_false in Hfin. rewrite Hfin. by exists (round_to_ulp x).
Qed.

Lemma feq_Finite (x : float) (a : Q) :
  feq x (Finite a) → ∃ b, x = Finite b ∧ (b == a)%Q.
Proof. destruct x as [b|]; [by exists b|done]. Qed.

Lemma b64_round_exact_eq (x : Q) (m e : Z) :
  0 <= m < 2 ^ 53 → -1074 <= e <= 900 → (x == inject_Z m * 2 ^ e)%Q →
  ∃ y, b64_round x = Finite y ∧ (y == inject_Z m * 2 ^ e)%Q.
Proof.
  intros Hm He Hx. destruct (b64_round_exact m e Hm He) as (y & Ey & Hy).
  pose proof (b64_round_proper _ _ Hx) as Hf. rewrite Ey in Hf.
  apply feq_Finite in Hf as (b & -> & Hb). exists b. split; [done|].
  by rewrite Hb.
Qed.

Lemma scale_exact (m : Z) (l : list string) :
  0 <= m < 2 ^ 53 →
  ∀ (j : nat) (a : Q),
    (j + length l ≤ 100)%nat →
    (a == inject_Z m * 2 ^ (-10 * Z.of_nat j))%Q →
    ∃ b, (scale l (Finite a)).1 = Finite b ∧
         (b == inject_Z m *
               2 ^ (-10 * Z.of_nat (j + scale_steps l (Finite a))))%Q.
Proof.
  intros Hm. induction l as [|u l IH]; intros j a Hj Ha.
  - exists a. cbn [scale scale_steps fst]. by rewrite Nat.add_0_r.
  - cbn [scale scale_steps]. destruct (flt (Finite a) 1024).
    + exists a. cbn [fst]. by rewrite Nat.add_0_r.
    + cbn [fdiv length] in *.
      destruct (b64_round_exact_eq (a / 1024) m (-10 * Z.of_nat (S j)) Hm
                  ltac:(lia)) as (b & -> & Hb).
      { rewrite Ha. replace (-10 * Z.of_nat (S j))
          with (-10 * Z.of_nat j + -10) by lia.
        rewrite pow2_add. change (2 ^ (-10))%Q with (1 # 1024)%Q. field. }
      destruct (IH (S j) b ltac:(lia) Hb) as (c & Hc & Hc').
      exists c. split; [done|]. rewrite Hc'.
      by replace (S j + scale_steps l (Finite b))%nat
        with (j + S (scale_steps l (Finite b)))%nat by lia.
Qed.

Lemma pow1024 (k : nat) :
  (2 ^ (-10 * Z.of_nat k) == / 1024 ^ Z.of_nat k)%Q.
Proof.
  replace (-10 * Z.of_nat k) with (- (10 * Z.of_nat k)) by lia.
  rewrite Qpower_opp, Qpower_mult. by change (2 ^ 10)%Q with 1024%Q.
Qed.

(** X4: below [2^53] the conversion is exact.  The unit is the one the count
    has reached by the thresholds 1024, ..., 1024^5, and the number is the
    exact quotient of the count by the unit's power of 1024, rounded half to
    even at two decimals: no float error enters. *)
Theorem bytes_to_human_exact (n : N) :
  (n < 2 ^ 53)%N →
  let k := thresholds_passed n in
  _bytes_to_human n =
    Ok (show_hundredths
          (round_half_even (N2Q n / 1024 ^ Z.of_nat k * 100)) +:+
        " " +:+ nth k units "EB").
Proof.
  intros Hn k.
  assert (n < float_limit)%N as Hlim.
  { assert (2 ^ 53 < float_limit)%N by (by vm_compute). lia. }
  assert (0 <= Z.of_N n < 2 ^ 53) as Hm by lia.
  rewrite bytes_to_human_unit.
  destruct (float_of_int_below n Hlim) as [a Ea]. rewrite Ea.
  cbn [mbind result_bind mret result_ret].
  assert (a == inject_Z (Z.of_N n) * 2 ^ (-10 * Z.of_nat 0))%Q as Ha.
  { destruct (b64_round_exact_eq (N2Q n) (Z.of_N n) 0 Hm ltac:(lia))
      as (y & Ey & Hy);
      [unfold N2Q; change (2 ^ 0)%Q with 1%Q; ring|].
    unfold float_of_int in Ea. rewrite Ey in Ea. injection Ea as <-.
    by rewrite Hy. }
  destruct (scale_exact (Z.of_N n) units Hm 0 a ltac:(cbn; lia) Ha)
    as (b & Hb & Hb').
  rewrite Hb, scale_unit, (scale_steps_thresholds n _ Hlim Ea).
  fold k. rewrite (scale_steps_thresholds n _ Hlim Ea) in Hb'. fold k in Hb'.
  cbn [Nat.add] in Hb'. rewrite pow1024 in Hb'.
  assert (k ≤ 5)%nat as Hk.
  { unfold k, thresholds_passed, unit_thresholds.
    rewrite !filter_cons. rewrite (decide_False (P := (2 ^ 60 - 64 <= n)%N)) by lia.
    repeat case_decide; cbn; lia. }
  assert (nth k (units ++ ["EB"]) "EB" = nth k units "EB") as ->.
  { do 6 (destruct k as [|k]; [done|]). lia. }
  cbn [format_2f]. unfold hundredths.
  assert (b * 100 == N2Q n / 1024 ^ Z.of_nat k * 100)%Q as ->; [|done].
  rewrite Hb'. unfold N2Q, Qdiv. ring.
Qed.

Lemma bytes_to_human_exact_witness :
  (1536 < 2 ^ 53)%N ∧
  _bytes_to_human 1536 =
    Ok (show_hundredths
          (round_half_even
             (N2Q 1536 / 1024 ^ Z.of_nat (thresholds_passed 1536) * 100)) +:+
        " " +:+ nth (thresholds_passed 1536) units "EB") ∧
  round_half_even (N2Q 1536 / 1024 ^ Z.of_nat (thresholds_passed 1536) * 100)
    = 150.
Proof.
  assert (1536 < 2 ^ 53)%N as H by (vm_compute; reflexivity).
  split; [exact H|]. split; [exact (bytes_to_human_exact 1536 H)|].
  vm_compute. reflexivity.
Defined.

(** ** The free percentage, continued *)

Lemma b64_round_const (x c y : Q) :
  (x == c)%Q → b64_round c = Finite y → ∃ b, b64_round x = Finite b ∧ (b == y)%Q.
Proof.
  intros Hx Hc. pose proof (b64_round_proper _ _ Hx) as Hf. rewrite Hc in Hf.
  by apply feq_Finite.
Qed.

(** X5: the ends of the scale.  A report with nothing free reads 0.00 and,
    for [total > 0], a report with everything free reads 100.00, whatever
    the size of the disk. *)
Theorem free_percent_ends (total : N) :
  (∃ x, free_percent total 0 = Ok x ∧ format_2f x = "0.00") ∧
  ((0 < total)%N →
   ∃ x, free_percent total total = Ok x ∧ format_2f x = "100.00").
Proof.
  split.
  - destruct (decide (total = 0%N)) as [->|Hne]; [by eexists|].
    rewrite free_percent_pos by lia.
    assert (N2Q 0 / N2Q total == 0)%Q as Hq by (unfold N2Q, Qdiv; cbn; ring).
    destruct (b64_round_const _ 0 0 Hq eq_refl) as (b & -> & Hb).
    assert (b * 100 == 0)%Q as Hq' by (rewrite Hb; ring).
    destruct (b64_round_const _ 0 0 Hq' eq_refl) as (c & -> & Hc).
    eexists. split; [done|]. cbn [format_2f]. unfold hundredths.
    assert (c * 100 == 0)%Q as -> by (rewrite Hc; ring). done.
  - intros Ht. rewrite free_percent_pos by done.
    pose proof (N2Q_pos total Ht) as Hpos.
    assert (N2Q total / N2Q total == 1)%Q as Hq by (field; lra).
    destruct b64_round_1 as (y1 & E1 & Hy1).
    destruct (b64_round_const _ 1 y1 Hq E1) as (b & -> & Hb).
    assert (b * 100 == 100)%Q as Hq' by (rewrite Hb, Hy1; ring).
    destruct b64_round_100 as (y100 & E100 & Hy100).
    destruct (b64_round_const _ 100 y100 Hq' E100) as (c & -> & Hc).
    eexists. split; [done|]. cbn [format_2f]. unfold hundredths.
    assert (c * 100 == 100 * 100)%Q as -> by (rewrite Hc, Hy100; ring). done.
Qed.

Lemma free_percent_ends_witness :
  ∃ x, free_percent 1073741824000 1073741824000 = Ok x ∧
       format_2f x = "100.00".
Proof.
  apply (proj2 (free_percent_ends 1073741824000)). lia.
Defined.

(** X6: more free bytes never read as a smaller percentage.  For one total,
    if the percentage of the larger free count is computed, so is that of
    the smaller, and it is not above it. *)
Theorem free_percent_monotone (total free1 free2 : N) (x2 : float) :
  (free1 <= free2)%N →
  free_percent total free2 = Ok x2 →
  ∃ x1, free_percent total free1 = Ok x1 ∧ fle x1 x2 ∧
        ∀ a b, x1 = Finite a → x2 = Finite b → hundredths a <= hundredths b.
Proof.
  intros Hf H2.
  assert (∃ x1, free_percent total free1 = Ok x1 ∧ fle x1 x2)
    as (x1 & H1 & Hle).
  { destruct (decide (total = 0%N)) as [->|Hne].
    { exists (Finite 0). split; [done|]. injection H2 as <-. cbn. lra. }
    rewrite free_percent_pos in H2 |- * by lia.
    pose proof (N2Q_pos total ltac:(lia)) as Hpos.
    assert (N2Q free1 / N2Q total <= N2Q free2 / N2Q total)%Q as Hq.
    { pose proof (N2Q_le _ _ Hf). apply Qle_shift_div_l; [done|].
      assert (N2Q free1 / N2Q total * N2Q total == N2Q free1)%Q as Hr
        by (field; lra). by rewrite Hr. }
    pose proof (b64_round_mono _ _ Hq) as Hm.
    destruct (b64_round (N2Q free2 / N2Q total)) as [q2|]; [|done].
    destruct (b64_round (N2Q free1 / N2Q total)) as [q1|]; [|contradiction].
    injection H2 as <-. eexists. split; [done|].
    apply b64_round_mono. cbn [fle] in Hm. by apply Qmult_le_r. }
  exists x1. split; [done|]. split; [done|].
  intros a b -> ->. by apply hundredths_mono.
Qed.

Lemma free_percent_monotone_witness :
  (3 <= 4)%N ∧
  ∃ x1, free_percent 20000 3 = Ok x1 ∧
        fle x1 (Finite (5764607523034235 # 288230376151711744)).
Proof.
  assert (3 <= 4)%N as H by lia.
  assert (free_percent 20000 4
          = Ok (Finite (5764607523034235 # 288230376151711744))) as H2.
  { vm_compute. reflexivity. }
  split; [exact H|].
  destruct (free_percent_monotone 20000 3 4 _ H H2) as (x1 & E1 & Hle & _).
  exists x1. split; [exact E1|exact Hle].
Defined.

(** ** What a call leaves alone *)

Lemma io_bind_raise {A B} (m : io A) (k : A → io B) fs e fs' :
  (m ≫= k) fs = (Raise e, fs') →
  m fs = (Raise e, fs') ∨
  ∃ a fs1, m fs = (Ok a, fs1) ∧ k a fs1 = (Raise e, fs').
Proof.
  unfold mbind, io_bind. destruct (m fs) as [[a|e'] fs1]; [eauto|].
  intros [= <- <-]. by left.
Qed.

Lemma makedirs_raise env name fs e fs' :
  makedirs env name fs = (Raise e, fs') → fs' = fs.
Proof.
  unfold makedirs. repeat case_match; by intros [= <-].
Qed.

Lemma open_append_raise env path fs e fs' :
  open_append env path fs = (Raise e, fs') → fs' = fs.
Proof.
  unfold open_append. repeat case_match; by intros [= <-].
Qed.

Lemma write_raise env f text fs e fs' :
  write env f text fs = (Raise e, fs') →
  ∃ k, write_fault env f text = Some (e, k) ∧
       fs' = FileSystem (dirs fs)
                        (alter (λ c, c +:+ string_take k text) f (files fs))
                        (stat_log fs).
Proof.
  unfold write. destruct (write_fault env f text) as [[e' k]|]; [|done].
  intros [= <- <-]. by exists k.
Qed.

Lemma string_take_prefix (k : nat) (s : string) :
  ∃ rest, string_take k s +:+ rest = s.
Proof.
  revert s. induction k as [|k IH]; intros s; [by exists s|].
  destruct s as [|c s]; [by exists EmptyString|].
  destruct (IH s) as [rest Hrest]. exists rest.
  cbn [string_take]. by rewrite string_app_cons, Hrest.
Qed.

(** A call that raises has either left every file as it was, or it has opened
    the day's file and a write to it has failed. *)
Lemma update_daily_disk_csv_raise env path_to_check out_dir fs e fs' :
  update_daily_disk_csv env path_to_check out_dir fs = (Raise e, fs') →
  let target := target_of (home env) (today env) out_dir in
  files fs' = files fs ∨
  ∃ line text k,
    data_line (env, path_to_check) line ∧
    write_fault env target text = Some (e, k) ∧
    ((files fs !! target = None ∧ text = csv_line fieldnames ∧
      files fs' = <[target := string_take k text]> (files fs)) ∨
     (text = line ∧
      files fs' = <[target := appended (files fs !! target)
                                       (string_take k text)]> (files fs))).
Proof.
  unfold update_daily_disk_csv. cbv zeta.
  fold (target_of (home env) (today env) out_dir).
  set (target := target_of _ _ _). intros Hrun.
  apply io_bind_raise in Hrun as [Hmk|([] & fs1 & Hmk & Hrun)].
  { left. by apply makedirs_raise in Hmk as ->. }
  apply makedirs_ok in Hmk as (_ & _ & ->).
  apply io_bind_raise in Hrun as [Hst|(u & fs2 & Hst & Hrun)].
  { left. unfold shutil_disk_usage in Hst. by injection Hst as _ <-. }
  unfold shutil_disk_usage in Hst. injection Hst as Hu <-.
  apply io_bind_raise in Hrun as [Hrow|(row & fs3 & Hrow & Hrun)].
  { left. unfold lift in Hrow. by injection Hrow as _ <-. }
  unfold lift in Hrow. injection Hrow as Hrow <-.
  apply io_bind_raise in Hrun as [Hex|(present & fs4 & Hex & Hrun)].
  { unfold path_exists in Hex. by injection Hex. }
  unfold path_exists in Hex. injection Hex as <- <-.
  apply io_bind_raise in Hrun as [Hop|(f & fs5 & Hop & Hrun)].
  { left. by apply open_append_raise in Hop as ->. }
  apply open_append_ok in Hop as (-> & Hdir & _ & ->).
  rewrite Hdir in Hrun. cbn [orb] in Hrun.
  pose proof Hrow as Hrow'.
  apply make_row_fields in Hrow' as (? & ? & ? & ? & _ & _ & _ & _ & Hvals).
  match type of Hvals with _ = Ok ?v => set (values := v) in * end.
  clearbody values.
  assert (data_line (env, path_to_check) (csv_line values)) as Hline.
  { by exists u, row, values. }
  right. unfold is_file in Hrun. cbn [files dirs stat_log] in Hrun.
  destruct (files fs !! target) as [old|] eqn:Hold.
  - rewrite bool_decide_eq_true_2 in Hrun by eauto. cbn [negb] in Hrun.
    apply io_bind_raise in Hrun as [Hhd|([] & fs6 & Hhd & Hrun)]; [done|].
    injection Hhd as <-.
    apply io_bind_raise in Hrun as [Hwr|([] & fs7 & _ & Hrun)]; [|done].
    unfold writerow in Hwr.
    apply io_bind_raise in Hwr as [Hl|(vs & fs8 & Hl & Hw)].
    { unfold lift in Hl. by rewrite Hvals in Hl. }
    unfold lift in Hl. rewrite Hvals in Hl. injection Hl as <- <-.
    apply write_raise in Hw as (k & Hk & ->).
    eexists _, _, k. split; [exact Hline|]. split; [exact Hk|]. right.
    split; [done|]. cbn [files appended]. apply map_eq. intros q.
    destruct (decide (q = target)) as [->|Hne].
    + by rewrite lookup_alter_eq, lookup_insert_eq, Hold.
    + by rewrite lookup_alter_ne, lookup_insert_ne.
  - rewrite bool_decide_eq_false_2 in Hrun by (by intros [? ?]).
    cbn [negb] in Hrun.
    apply io_bind_raise in Hrun as [Hhd|([] & fs6 & Hhd & Hrun)].
    + unfold writeheader in Hhd. apply write_raise in Hhd as (k & Hk & ->).
      eexists _, _, k. split; [exact Hline|]. split; [exact Hk|]. left.
      split; [done|]. split; [done|]. cbn [files]. apply map_eq. intros q.
      destruct (decide (q = target)) as [->|Hne].
      * by rewrite lookup_alter_eq, !lookup_insert_eq.
      * by rewrite lookup_alter_ne, !lookup_insert_ne.
    + unfold writeheader in Hhd. apply write_ok in Hhd as [_ ->].
      apply io_bind_raise in Hrun as [Hwr|([] & fs7 & _ & Hrun)]; [|done].
      unfold writerow in Hwr.
      apply io_bind_raise in Hwr as [Hl|(vs & fs8 & Hl & Hw)].
      { unfold lift in Hl. by rewrite Hvals in Hl. }
      unfold lift in Hl. rewrite Hvals in Hl. injection Hl as <- <-.
      apply write_raise in Hw as (k & Hk & ->).
      eexists _, _, k. split; [exact Hline|]. split; [exact Hk|]. right.
      split; [done|]. cbn [files appended]. apply map_eq. intros q.
      destruct (decide (q = target)) as [->|Hne].
      * by rewrite !lookup_alter_eq, !lookup_insert_eq.
      * by rewrite !lookup_alter_ne, !lookup_insert_ne.
Qed.

(** X7: what a call that raises leaves behind.  No file other than the day's
    file has changed.  Either the day's file is as it was too, and has not
    been created (the exception came from the directory, the statistics, a
    count too large for a float, or the open), or the exception is the one
    of a failed write, and the day's file holds what it held before followed
    by a beginning of what the call was writing: the header line, if the
    file was not there, and the row.  Where no write fails, a call that
    raises has changed no file. *)
Theorem raising_call_effect env path_to_check out_dir fs e fs' :
  update_daily_disk_csv env path_to_check out_dir fs = (Raise e, fs') →
  let target := target_of (home env) (today env) out_dir in
  (∀ q, q ≠ target → files fs' !! q = files fs !! q) ∧
  (files fs' = files fs ∨
   ∃ line written rest text k,
     write_fault env target text = Some (e, k) ∧
     row_of (env, path_to_check) line ∧
     written +:+ rest =
       match files fs !! target with
       | Some _ => EmptyString
       | None => header_text
       end +:+ line ∧
     files fs' !! target =
       Some (default EmptyString (files fs !! target) +:+ written)) ∧
  ((∀ text, write_fault env target text = None) → files fs' = files fs).
Proof.
  intros Hrun target.
  pose proof (update_daily_disk_csv_raise _ _ _ _ _ _ Hrun) as Hc.
  cbv zeta in Hc. fold target in Hc.
  destruct Hc as [Hsame|(line & text & k & Hline & Hk & Hcase)].
  { split; [by rewrite Hsame|]. split; [by left|done]. }
  split; [|split].
  - intros q Hq.
    destruct Hcase as [(_ & _ & ->)|(_ & ->)]; by rewrite lookup_insert_ne.
  - right. destruct (string_take_prefix k text) as [rest Hrest].
    destruct Hcase as [(Hnew & -> & ->)|(-> & ->)].
    + exists line, (string_take k (csv_line fieldnames)), (rest +:+ line),
        (csv_line fieldnames), k.
      split; [done|]. split; [by apply data_line_row_of|].
      rewrite Hnew, lookup_insert_eq. split; [|done].
      by rewrite <- string_app_assoc, Hrest.
    + exists line,
        (match files fs !! target with
         | Some _ => EmptyString
         | None => header_text
         end +:+ string_take k line), rest, line, k.
      split; [done|]. split; [by apply data_line_row_of|].
      rewrite lookup_insert_eq. split.
      * by rewrite string_app_assoc, Hrest.
      * by destruct (files fs !! target).
  - intros Hnone. by rewrite Hnone in Hk.
Qed.

Lemma raising_call_effect_witness :
  ∃ fs',
    update_daily_disk_csv example_env_full_disk None None empty_fs =
      (Raise (OSError "ENOSPC"), fs') ∧
    files fs' !! example_target =
      Some (header_text +:+ "2024-03-07 09:05:03,") ∧
    ∀ q, q ≠ example_target → files fs' !! q = files empty_fs !! q.
Proof.
  destruct (update_daily_disk_csv example_env_full_disk None None empty_fs)
    as [r fs'] eqn:Hrun.
  assert (r = Raise (OSError "ENOSPC")) as ->.
  { change r with (r, fs').1. rewrite <- Hrun. vm_compute. reflexivity. }
  exists fs'. split; [reflexivity|]. split.
  - assert (fs' = (update_daily_disk_csv example_env_full_disk None None
                                         empty_fs).2)
      as -> by (by rewrite Hrun).
    vm_compute. reflexivity.
  - exact (proj1 (raising_call_effect _ _ _ _ _ _ Hrun)).
Defined.

(** X8: a call that returns touches one file only.  Every other file is as it
    was, no directory has gone and the new ones are [out_dir] and its
    ancestors, and what the day's file held before is still the beginning of
    what it holds. *)
Theorem returning_call_frame env path_to_check out_dir fs path fs' :
  update_daily_disk_csv env path_to_check out_dir fs = (Ok path, fs') →
  let od := default (path_join (home env) "disk_reports") out_dir in
  (∀ q, q ≠ path → files fs' !! q = files fs !! q) ∧
  (∀ q, q ∈ dirs fs' ↔ q ∈ dirs fs ∨ q ∈ ancestors od) ∧
  ∃ suffix,
    files fs' !! path =
      Some (default EmptyString (files fs !! path) +:+ suffix).
Proof.
  intros Hrun od.
  apply update_daily_disk_csv_ok in Hrun
    as (u & row & values & _ & _ & _ & _ & _ & _ & Hfiles & Hdirs & _).
  fold od in Hdirs. split; [|split].
  - intros q Hq. by rewrite Hfiles, lookup_insert_ne.
  - intros q. rewrite Hdirs, elem_of_union, elem_of_list_to_set. done.
  - rewrite Hfiles, lookup_insert_eq.
    destruct (files fs !! path) as [old|]; cbn [appended default]; eauto.
Qed.

Lemma returning_call_frame_witness :
  ∃ fs',
    update_daily_disk_csv example_env None (Some "reports") touched_fs =
      (Ok "reports/disk_usage_20240307.csv", fs') ∧
    files fs' !! example_target = files touched_fs !! example_target.
Proof.
  destruct (update_daily_disk_csv example_env None (Some "reports") touched_fs)
    as [r fs'] eqn:Hrun.
  assert (r = Ok "reports/disk_usage_20240307.csv") as ->.
  { change r with (r, fs').1. rewrite <- Hrun. vm_compute. reflexivity. }
  exists fs'. split; [reflexivity|].
  apply (proj1 (returning_call_frame _ _ _ _ _ _ Hrun)).
  vm_compute. discriminate.
Defined.

(** ** Dates and file names *)

Lemma string_length_app (a b : string) :
  String.length (a +:+ b) = (String.length a + String.length b)%nat.
Proof.
  induction a as [|c a IH]; [done|].
  rewrite string_app_cons. cbn [String.length]. by rewrite IH.
Qed.

Lemma string_app_inj_length (a a' b b' : string) :
  String.length a = String.length a' →
  a +:+ b = a' +:+ b' → a = a' ∧ b = b'.
Proof.
  revert a'. induction a as [|c a IH]; intros [|c' a'] Hlen Heq; try done.
  rewrite !string_app_cons in Heq. injection Heq as -> Heq.
  injection Hlen as Hlen. destruct (IH a' Hlen Heq) as [-> ->]. done.
Qed.

Lemma digits_length (w : nat) (n : N) : String.length (digits w n) = w.
Proof.
  revert n. induction w as [|w IH]; intros n; [done|].
  cbn [digits]. rewrite string_length_app, IH. cbn. lia.
Qed.

Lemma digits_inj (w : nat) (n m : N) :
  (n < 10 ^ N.of_nat w)%N → (m < 10 ^ N.of_nat w)%N →
  digits w n = digits w m → n = m.
Proof.
  revert n m. induction w as [|w IH]; intros n m Hn Hm Heq.
  - cbn in Hn, Hm. lia.
  - cbn [digits] in Heq.
    apply string_app_inj_length in Heq as [Hq Hr];
      [|by rewrite !digits_length].
    injection Hr as Hr.
    replace (N.of_nat (S w)) with (N.succ (N.of_nat w)) in Hn, Hm by lia.
    rewrite N.pow_succ_r' in Hn, Hm.
    apply IH in Hq; [|apply N.Div0.div_lt_upper_bound; lia..].
    apply pretty_N_char_inj in Hr; [|by apply N.mod_lt..].
    rewrite (N.div_mod n 10), (N.div_mod m 10) by done. lia.
Qed.

Lemma pattern_Ymd_inj (d1 d2 : date) :
  valid_date d1 → valid_date d2 → pattern_Ymd d1 = pattern_Ymd d2 → d1 = d2.
Proof.
  intros (Hy1 & Hm1 & Hd1) (Hy2 & Hm2 & Hd2). unfold pattern_Ymd. intros Heq.
  apply string_app_inj_length in Heq as [Hy Heq];
    [|by rewrite !digits_length].
  apply string_app_inj_length in Heq as [Hm Hd];
    [|by rewrite !digits_length].
  apply digits_inj in Hy; [|cbn; lia..].
  apply digits_inj in Hm; [|cbn; lia..].
  apply digits_inj in Hd; [|cbn; lia..].
  destruct d1, d2. cbn in *. by subst.
Qed.

Lemma target_of_inj (h : string) (d1 d2 : date) (out_dir : option string) :
  default (path_join h "disk_reports") out_dir ≠ EmptyString →
  valid_date d1 → valid_date d2 →
  target_of h d1 out_dir = target_of h d2 out_dir → d1 = d2.
Proof.
  intros Hod Hv1 Hv2. rewrite !target_of_spelling by done.
  rewrite !strftime_pattern by done. intros Heq.
  do 3 apply (inj (String.app _)) in Heq.
  apply string_app_inj_length in Heq as [Heq _].
  - by apply pattern_Ymd_inj.
  - unfold pattern_Ymd. by rewrite !string_length_app, !digits_length.
Qed.

(** X9: a file per day.  Two calls with one [out_dir] on two different dates
    write two different files; if neither was there before, each holds the
    header and the row of its own call. *)
Theorem different_days_different_files
    env1 env2 path_to_check1 path_to_check2 out_dir fs path1 fs1 path2 fs2 :
  home env1 = home env2 →
  valid_date (today env1) → valid_date (today env2) →
  today env1 ≠ today env2 →
  files fs !! path1 = None → files fs !! path2 = None →
  update_daily_disk_csv env1 path_to_check1 out_dir fs = (Ok path1, fs1) →
  update_daily_disk_csv env2 path_to_check2 out_dir fs1 = (Ok path2, fs2) →
  path1 ≠ path2 ∧
  ∃ line1 line2,
    data_line (env1, path_to_check1) line1 ∧
    data_line (env2, path_to_check2) line2 ∧
    files fs2 !! path1 = Some (csv_line fieldnames +:+ line1) ∧
    files fs2 !! path2 = Some (csv_line fieldnames +:+ line2).
Proof.
  intros Hh Hv1 Hv2 Hne Hnew1 Hnew2 Hrun1 Hrun2.
  apply update_daily_disk_csv_ok in Hrun1
    as (u1 & row1 & vs1 & Hod & Hu1 & Hrow1 & Hvs1 & Hp1 & _ & Hf1 & _).
  apply update_daily_disk_csv_ok in Hrun2
    as (u2 & row2 & vs2 & _ & Hu2 & Hrow2 & Hvs2 & Hp2 & _ & Hf2 & _).
  assert (path1 ≠ path2) as Hpaths.
  { rewrite Hp1, Hp2, <- Hh. intros Heq.
    by apply target_of_inj in Heq. }
  split; [done|].
  exists (csv_line vs1), (csv_line vs2).
  split; [by exists u1, row1, vs1|]. split; [by exists u2, row2, vs2|].
  rewrite Hf2, Hf1. split.
  - rewrite lookup_insert_ne, lookup_insert_eq by done. by rewrite Hnew1.
  - rewrite lookup_insert_eq, lookup_insert_ne, Hnew2 by done. done.
Qed.

Lemma different_days_different_files_witness :
  ∃ fs1 fs2 line1 line2,
    update_daily_disk_csv example_env None None empty_fs
      = (Ok example_target, fs1) ∧
    update_daily_disk_csv example_env_next_day None None fs1
      = (Ok "/home/u/disk_reports/disk_usage_20240308.csv", fs2) ∧
    files fs2 !! example_target = Some (csv_line fieldnames +:+ line1) ∧
    files fs2 !! "/home/u/disk_reports/disk_usage_20240308.csv"
      = Some (csv_line fieldnames +:+ line2).
Proof.
  destruct (update_daily_disk_csv example_env None None empty_fs)
    as [r1 fs1] eqn:Hrun1.
  assert (r1 = Ok example_target) as ->.
  { change r1 with (r1, fs1).1. rewrite <- Hrun1. vm_compute. reflexivity. }
  destruct (update_daily_disk_csv example_env_next_day None None fs1)
    as [r2 fs2] eqn:Hrun2.
  assert (r2 = Ok "/home/u/disk_reports/disk_usage_20240308.csv") as ->.
  { change r2 with (r2, fs2).1. rewrite <- Hrun2.
    assert (fs1 = (update_daily_disk_csv example_env None None empty_fs).2)
      as -> by (by rewrite Hrun1).
    vm_compute. reflexivity. }
  assert (valid_date (today example_env)) as Hv1.
  { repeat split; vm_compute; congruence. }
  assert (valid_date (today example_env_next_day)) as Hv2.
  { repeat split; vm_compute; congruence. }
  destruct (different_days_different_files example_env example_env_next_day
              None None None empty_fs _ fs1 _ fs2 eq_refl Hv1 Hv2
              ltac:(discriminate) eq_refl eq_refl Hrun1 Hrun2)
    as (_ & line1 & line2 & _ & _ & H1 & H2).
  exists fs1, fs2, line1, line2.
  split; [reflexivity|]. split; [exact Hrun2|]. split; [exact H1|exact H2].
Defined.

(** ** Calling again *)

Lemma ancestors_from_length (pre rest q : string) :
  q ∈ ancestors_from pre rest →
  (String.length q ≤ String.length pre + String.length rest)%nat.
Proof.
  revert pre. induction rest as [|c rest IH]; intros pre.
  - cbn [ancestors_from]. intros ->%list_elem_of_singleton. lia.
  - cbn [ancestors_from String.length]. intros [Hq|Hq]%elem_of_app.
    + destruct (_ && _); [|by apply elem_of_nil in Hq].
      apply list_elem_of_singleton in Hq as ->. lia.
    + apply IH in Hq. rewrite string_length_app in Hq. cbn in Hq. lia.
Qed.

Lemma target_not_ancestor (h : string) (d : date) (out_dir : option string) :
  let od := default (path_join h "disk_reports") out_dir in
  od ≠ EmptyString → target_of h d out_dir ∉ ancestors od.
Proof.
  intros od Hod Hin. apply ancestors_from_length in Hin.
  rewrite target_of_spelling in Hin by done. fold od in Hin.
  rewrite !string_length_app in Hin. cbn in Hin. lia.
Qed.

Lemma update_daily_disk_csv_ok_os env path_to_check out_dir fs path fs' :
  update_daily_disk_csv env path_to_check out_dir fs = (Ok path, fs') →
  let od := default (path_join (home env) "disk_reports") out_dir in
  makedirs_fault env od = None ∧
  existsb (is_file fs) (ancestors od) = false ∧
  open_fault env path = None ∧
  ∀ u row values,
    disk_usage env (default (home env) path_to_check) = Ok u →
    make_row env (default (home env) path_to_check) u = Ok row →
    _dict_to_list fieldnames row = Ok values →
    write_fault env path (csv_line values) = None.
Proof.
  intros Hrun od. unfold update_daily_disk_csv in Hrun. fold od in Hrun.
  cbv zeta in Hrun.
  apply io_bind_ok in Hrun as ([] & fs1 & Hmk & Hrun).
  assert (makedirs_fault env od = None ∧
          existsb (is_file fs) (ancestors od) = false) as [H1 H2].
  { unfold makedirs in Hmk. by repeat (case_match; simplify_eq). }
  apply io_bind_ok in Hrun as (u & fs2 & Hu & Hrun).
  unfold shutil_disk_usage in Hu. injection Hu as Hu _.
  apply io_bind_ok in Hrun as (row & fs3 & Hrow & Hrun).
  unfold lift in Hrow. injection Hrow as Hrow _.
  apply io_bind_ok in Hrun as (present & fs4 & Hex & Hrun).
  unfold path_exists in Hex. injection Hex as <- <-.
  apply io_bind_ok in Hrun as (f & fs5 & Hopen & Hrun).
  apply open_append_ok in Hopen as (-> & _ & Hopen & _).
  apply io_bind_ok in Hrun as ([] & fs6 & _ & Hrun).
  apply io_bind_ok in Hrun as ([] & fs7 & Hwrite & Hrun).
  unfold writerow in Hwrite.
  apply io_bind_ok in Hwrite as (values & fs8 & Hvals & Hwrite).
  unfold lift in Hvals. injection Hvals as Hvals _.
  apply write_ok in Hwrite as [Hw _].
  injection Hrun as <- _. repeat split; try done.
  intros u' row' values' Hu' Hrow' Hvals'.
  rewrite Hu in Hu'. injection Hu' as <-.
  rewrite Hrow in Hrow'. injection Hrow' as <-.
  rewrite Hvals in Hvals'. by injection Hvals' as <-.
Qed.

Lemma update_daily_disk_csv_returns_row env path_to_check out_dir fs u row :
  let p := default (home env) path_to_check in
  let od := default (path_join (home env) "disk_reports") out_dir in
  let target := target_of (home env) (today env) out_dir in
  od ≠ EmptyString →
  makedirs_fault env od = None →
  existsb (is_file fs) (ancestors od) = false →
  disk_usage env p = Ok u →
  make_row env p u = Ok row →
  is_dir fs target = false →
  open_fault env target = None →
  (is_file fs target = false →
   write_fault env target (csv_line fieldnames) = None) →
  (∀ values, _dict_to_list fieldnames row = Ok values →
             write_fault env target (csv_line values) = None) →
  ∃ fs', update_daily_disk_csv env path_to_check out_dir fs = (Ok target, fs').
Proof.
  intros p od target Hod Hmk Hanc Hu Hrow Hdir Hopen Hhd Hwr.
  pose proof (target_not_ancestor (home env) (today env) out_dir Hod) as Hnot.
  fold od target in Hnot.
  pose proof Hrow as Hrow'.
  apply make_row_fields in Hrow' as (? & ? & ? & ? & _ & _ & _ & _ & Hvals).
  assert (is_file fs od = false) as Hfile.
  { destruct (is_file fs od) eqn:E; [|done].
    assert (existsb (is_file fs) (ancestors od) = true) as Hex; [|congruence].
    apply existsb_exists. exists od. split; [|done].
    apply list_elem_of_In, ancestors_self. }
  set (fs1 := FileSystem (dirs fs ∪ list_to_set (ancestors od)) (files fs)
                         (stat_log fs)).
  set (fs2 := FileSystem (dirs fs1) (files fs1) (p :: stat_log fs1)).
  assert (makedirs env od fs = (Ok (), fs1)) as H1.
  { unfold makedirs. by rewrite bool_decide_eq_false_2, Hmk, Hfile, Hanc. }
  assert (shutil_disk_usage env p fs1 = (Ok u, fs2)) as H2.
  { unfold shutil_disk_usage. by rewrite Hu. }
  assert (is_dir fs2 target = false) as Hdir2.
  { unfold is_dir in *. cbn [dirs fs2 fs1].
    apply bool_decide_eq_false in Hdir. apply bool_decide_eq_false.
    rewrite not_elem_of_union, elem_of_list_to_set. by split. }
  assert (∃ fs3, open_append env target fs2 = (Ok target, fs3)) as (fs3 & H3).
  { unfold open_append. rewrite Hopen, Hdir2. by eexists. }
  assert (∀ fs4, ∃ fs5, writerow env target fieldnames row fs4 = (Ok (), fs5))
    as H5.
  { intros fs4. unfold writerow, lift, mbind, io_bind.
    rewrite Hvals. cbv beta iota. unfold write.
    rewrite (Hwr _ Hvals). by eexists. }
  assert (∃ fs4, (if negb (is_dir fs2 target || is_file fs2 target)
                  then writeheader env target fieldnames else mret ()) fs3
                 = (Ok (), fs4)) as [fs4 H4].
  { destruct (negb _) eqn:E; [|by eexists].
    apply negb_true_iff, orb_false_iff in E as [_ E].
    unfold writeheader, write. rewrite (Hhd E). by eexists. }
  destruct (H5 fs4) as [fs5 H5'].
  exists fs5. unfold update_daily_disk_csv. fold p od. cbv zeta.
  fold (target_of (home env) (today env) out_dir). fold target.
  rewrite (io_bind_run _ _ _ _ _ H1), (io_bind_run _ _ _ _ _ H2).
  rewrite (io_bind_run (lift (make_row env p u)) _ fs2 row fs2)
    by (unfold lift; by rewrite Hrow).
  rewrite (io_bind_run (path_exists target) _ fs2 _ fs2 eq_refl).
  rewrite (io_bind_run _ _ _ _ _ H3), (io_bind_run _ _ _ _ _ H4).
  by rewrite (io_bind_run _ _ _ _ _ H5').
Qed.

(** X10: a call can be repeated.  After a call that returned, the same call
    under the same conditions returns again: the directory that is there now
    is no obstacle, and neither is the file; the file gets the row once more
    and no second header. *)
Theorem call_can_be_repeated env path_to_check out_dir fs path fs1 :
  update_daily_disk_csv env path_to_check out_dir fs = (Ok path, fs1) →
  ∃ fs2 text line,
    files fs1 !! path = Some text ∧
    data_line (env, path_to_check) line ∧
    update_daily_disk_csv env path_to_check out_dir fs1 = (Ok path, fs2) ∧
    files fs2 !! path = Some (text +:+ line).
Proof.
  intros Hrun.
  pose proof (update_daily_disk_csv_ok_os _ _ _ _ _ _ Hrun)
    as (Hmk & Hanc & Hop & Hw).
  apply update_daily_disk_csv_ok in Hrun
    as (u & row & values & Hod & Hu & Hrow & Hvals & Hp & Hdir & Hfiles & Hdirs
        & _).
  set (od := default (path_join (home env) "disk_reports") out_dir) in *.
  pose proof (target_not_ancestor (home env) (today env) out_dir Hod) as Hnot.
  fold od in Hnot. rewrite <- Hp in Hnot.
  destruct (update_daily_disk_csv_returns_row env path_to_check out_dir fs1
              u row Hod Hmk) as [fs2 Hrun2]; try done.
  - apply not_true_is_false. intros (q & Hq & Hfile)%existsb_exists.
    apply list_elem_of_In in Hq.
    assert (is_file fs q = true) as Hfq.
    { unfold is_file in *. rewrite Hfiles in Hfile.
      rewrite lookup_insert_ne in Hfile; [done|]. by intros ->. }
    assert (existsb (is_file fs) (ancestors od) = true); [|congruence].
    apply existsb_exists. exists q. by rewrite <- list_elem_of_In.
  - rewrite <- Hp. unfold is_dir in *. apply bool_decide_eq_false.
    apply bool_decide_eq_false in Hdir.
    rewrite Hdirs, not_elem_of_union, elem_of_list_to_set. by split.
  - by rewrite <- Hp.
  - intros Hc. exfalso. rewrite <- Hp in Hc. unfold is_file in Hc.
    rewrite Hfiles, lookup_insert_eq in Hc.
    apply bool_decide_eq_false in Hc. destruct Hc. eauto.
  - intros vs Hvs. rewrite <- Hp. by apply (Hw u row vs).
  - rewrite <- Hp in Hrun2.
    pose proof Hrun2 as Hrun2'.
    apply update_daily_disk_csv_ok in Hrun2'
      as (u' & row' & values' & _ & Hu' & Hrow' & Hvals' & _ & _ & Hfiles' & _).
    exists fs2, (appended (files fs !! path) (csv_line values)),
      (csv_line values').
    split; [by rewrite Hfiles, lookup_insert_eq|].
    split; [by exists u', row', values'|]. split; [done|].
    by rewrite Hfiles', lookup_insert_eq, Hfiles, lookup_insert_eq.
Qed.

Lemma call_can_be_repeated_witness :
  ∃ fs1 fs2 text line,
    update_daily_disk_csv example_env None None empty_fs
      = (Ok example_target, fs1) ∧
    files fs1 !! example_target = Some text ∧
    update_daily_disk_csv example_env None None fs1
      = (Ok example_target, fs2) ∧
    files fs2 !! example_target = Some (text +:+ line).
Proof.
  destruct (update_daily_disk_csv example_env None None empty_fs)
    as [r1 fs1] eqn:Hrun1.
  assert (r1 = Ok example_target) as ->.
  { change r1 with (r1, fs1).1. rewrite <- Hrun1. vm_compute. reflexivity. }
  destruct (call_can_be_repeated example_env None None empty_fs _ fs1 Hrun1)
    as (fs2 & text & line & H1 & _ & H2 & H3).
  exists fs1, fs2, text, line.
  split; [reflexivity|]. split; [exact H1|]. split; [exact H2|exact H3].
Defined.

(** ** The program *)

Lemma default_target_spelling (h : string) (d : date) :
  h ≠ EmptyString → ends_with_sep h = false → valid_date d →
  target_of h d None =
    h +:+ "/disk_reports/disk_usage_" +:+ pattern_Ymd d +:+ ".csv".
Proof.
  intros Hh Hsep Hd.
  assert (path_join h "disk_reports" = h +:+ "/disk_reports") as Hod.
  { rewrite path_join_relative by reflexivity.
    by rewrite Hsep, (bool_decide_eq_false_2 (h = EmptyString)). }
  assert (ends_with_sep (h +:+ "/disk_reports") = false) as Hsep'.
  { clear. induction h as [|c h IH]; [done|].
    rewrite string_app_cons. cbn [ends_with_sep].
    destruct (h +:+ "/disk_reports") eqn:E; [by destruct h|done]. }
  rewrite target_of_spelling; cbn [default]; rewrite Hod.
  - rewrite Hsep', strftime_pattern by done. by rewrite !string_app_assoc.
  - by destruct h.
Qed.

(** X11: the program.  Run as a script, it records with the defaults and hands
    [Wrote disk usage to: <path>] to [print], with the path of the day's file
    under [<home>/disk_reports]; when the recording raises, the exception
    passes through and nothing is printed. *)
Theorem main_prints_written_path (env : os_env) (fs : filesystem) :
  (∀ e fs',
     update_daily_disk_csv env None None fs = (Raise e, fs') →
     main env fs = (Raise e, fs')) ∧
  (∀ text fs',
     main env fs = (Ok text, fs') →
     home env ≠ EmptyString → ends_with_sep (home env) = false →
     valid_date (today env) →
     text = "Wrote disk usage to: " +:+ home env +:+
            "/disk_reports/disk_usage_" +:+ pattern_Ymd (today env) +:+
            ".csv" ∧
     stat_log fs' = home env :: stat_log fs ∧
     is_file fs' (home env +:+ "/disk_reports/disk_usage_" +:+
                  pattern_Ymd (today env) +:+ ".csv") = true).
Proof.
  split.
  - intros e fs' Hrun. unfold main, mbind, io_bind. by rewrite Hrun.
  - intros text fs' Hmain Hh Hsep Hd. unfold main in Hmain.
    apply io_bind_ok in Hmain as (out & fs1 & Hrun & Hret).
    injection Hret as <- <-.
    apply update_daily_disk_csv_ok in Hrun
      as (u & row & values & _ & _ & _ & _ & Hp & _ & Hfiles & _ & Hlog).
    rewrite default_target_spelling in Hp by done. subst out.
    split; [done|]. split; [done|].
    unfold is_file. apply bool_decide_eq_true.
    rewrite Hfiles, lookup_insert_eq. eauto.
Qed.

Lemma main_prints_written_path_witness :
  ∃ fs',
    main example_env empty_fs =
      (Ok "Wrote disk usage to: /home/u/disk_reports/disk_usage_20240307.csv",
       fs') ∧
    stat_log fs' = ["/home/u"].
Proof.
  destruct (main example_env empty_fs) as [r fs'] eqn:Hrun.
  assert (r = Ok "Wrote disk usage to: /home/u/disk_reports/disk_usage_20240307.csv")
    as ->.
  { change r with (r, fs').1. rewrite <- Hrun. vm_compute. reflexivity. }
  exists fs'. split; [reflexivity|].
  destruct (proj2 (main_prints_written_path example_env empty_fs) _ fs' Hrun)
    as (_ & Hlog & _).
  - discriminate.
  - reflexivity.
  - repeat split; vm_compute; congruence.
  - exact Hlog.
Defined.

(** ** Which fields are quoted *)

(** X12: only the path can be quoted.  The row of a call that returns is its
    nine field texts with commas between them and CR LF at the end; the
    timestamp, the counts, the percentage and the readable sizes are always
    written as they are, and the path is quoted exactly when it holds a
    comma, a quote, CR or LF. *)
Theorem only_the_path_is_quoted env path_to_check out_dir fs path fs' :
  update_daily_disk_csv env path_to_check out_dir fs = (Ok path, fs') →
  let p := default (home env) path_to_check in
  ∃ u pct total_human used_human free_human,
    disk_usage env p = Ok u ∧
    free_percent (total u) (free u) = Ok pct ∧
    _bytes_to_human (total u) = Ok total_human ∧
    _bytes_to_human (used u) = Ok used_human ∧
    _bytes_to_human (free u) = Ok free_human ∧
    files fs' !! path =
      Some (appended (files fs !! path)
              (isoformat_seconds (now env) +:+ "," +:+
               (if needs_quote p
                then String dquote (double_quotes p) +:+
                     String dquote EmptyString
                else p) +:+ "," +:+
               str (total u) +:+ "," +:+ str (used u) +:+ "," +:+
               str (free u) +:+ "," +:+ format_2f pct +:+ "," +:+
               total_human +:+ "," +:+ used_human +:+ "," +:+
               free_human +:+ lineterminator)).
Proof.
  intros Hrun p.
  apply update_daily_disk_csv_ok in Hrun
    as (u & row & values & _ & Hu & Hrow & Hvals & _ & _ & Hfiles & _).
  fold p in Hu, Hrow.
  apply make_row_fields in Hrow as (pct & th & uh & fh & Hp & Ht & Hus & Hf & Hl).
  rewrite Hl in Hvals. injection Hvals as <-.
  exists u, pct, th, uh, fh. repeat split; try done.
  rewrite Hfiles, lookup_insert_eq. do 2 f_equal.
  unfold csv_line. cbn [fmap list_fmap String.concat].
  rewrite (csv_field_plain _ (isoformat_plain _)).
  rewrite !(csv_field_plain _ (str_plain _)).
  rewrite (csv_field_plain _ (format_2f_plain _)).
  rewrite (csv_field_plain _ (bytes_to_human_plain _ _ Ht)).
  rewrite (csv_field_plain _ (bytes_to_human_plain _ _ Hus)).
  rewrite (csv_field_plain _ (bytes_to_human_plain _ _ Hf)).
  unfold csv_field at 1. by rewrite !string_app_assoc.
Qed.

Lemma only_the_path_is_quoted_witness :
  ∃ fs',
    update_daily_disk_csv example_env_later (Some "/mnt/a,b") None empty_fs =
      (Ok example_target, fs') ∧
    files fs' !! example_target =
      Some (csv_line fieldnames +:+
            "2024-03-07 09:05:08," +:+
            String dquote ("/mnt/a,b" +:+ String dquote EmptyString) +:+
            ",1073741824000,500000001024,573741822976,53.43," +:+
            "1000.00 GB,465.66 GB,534.34 GB" +:+ lineterminator).
Proof.
  destruct (update_daily_disk_csv example_env_later (Some "/mnt/a,b") None
              empty_fs) as [r fs'] eqn:Hrun.
  assert (r = Ok example_target) as ->.
  { change r with (r, fs').1. rewrite <- Hrun. vm_compute. reflexivity. }
  exists fs'. split; [reflexivity|].
  destruct (only_the_path_is_quoted _ _ _ _ _ _ Hrun)
    as (u & pct & th & uh & fh & Hu & Hp & Ht & Hus & Hf & Hfile).
  rewrite Hfile. injection Hu as <-.
  vm_compute in Hp, Ht, Hus, Hf.
  injection Hp as <-. injection Ht as <-. injection Hus as <-.
  injection Hf as <-. vm_compute. reflexivity.
Defined.
